(** * WHM Alert: the polling and alerting core of [src/index.ts]

    The program polls the latest pipeline run of a repository (GitHub Actions
    or GitLab pipelines), remembers a run id in the closure variable
    [lastRunId], and posts failure / recovery alerts to a Slack webhook and /
    or a generic webhook.

    The embedding is shallow.  JavaScript values that the code inspects are
    given by a small value type with the coercions the code applies to them
    ([String(..)], truthiness, [===] against a string literal).  Effects
    (HTTP calls, the clock, the console, the mutable [lastRunId], thrown
    errors, [process.exit]) live in one monad [M]: a state monad over a
    [World], reading the answers of the outside world from an [Env], with a
    three-way [Result] (normal return, thrown error, process exit). *)

From Stdlib Require Import String Ascii List ZArith Bool Lia DecimalString.
Import ListNotations.
Open Scope string_scope.

(** ** JavaScript values *)

(** The primitive JSON values a run object's fields can hold, plus
    [undefined] for an absent field.  Numbers are the integral ones (run and
    pipeline ids). *)
Inductive JsVal : Type :=
| JsUndefined
| JsNull
| JsBool (b : bool)
| JsNum (n : Z)
| JsStr (s : string).

(** [String(v)]. *)
Definition String_ (v : JsVal) : string :=
  match v with
  | JsUndefined => "undefined"
  | JsNull => "null"
  | JsBool true => "true"
  | JsBool false => "false"
  | JsNum n => NilZero.string_of_int (Z.to_int n)
  | JsStr s => s
  end.

(** [v === 'lit']: strict equality against a string literal. *)
Definition strict_eq (v : JsVal) (lit : string) : bool :=
  match v with
  | JsStr s => s =? lit
  | _ => false
  end.

(** Truthiness of a [string | null] or [string | undefined] variable: null,
    undefined and the empty string are falsy. *)
Definition truthy (o : option string) : bool :=
  match o with
  | Some s => negb (s =? "")
  | None => false
  end.

(** [s !== o] for a string [s] and a [string | null] variable [o]. *)
Definition strict_neq (s : string) (o : option string) : bool :=
  match o with
  | Some s' => negb (s =? s')
  | None => true
  end.

(** Truthiness of an optional boolean flag. *)
Definition truthy_flag (o : option bool) : bool :=
  match o with
  | Some b => b
  | None => false
  end.

(** ** [encodeURIComponent] on the bytes of a UTF-8 string *)

Definition unreserved (c : ascii) : bool :=
  let n := nat_of_ascii c in
  (65 <=? n)%nat && (n <=? 90)%nat || (97 <=? n)%nat && (n <=? 122)%nat
  || (48 <=? n)%nat && (n <=? 57)%nat
  || existsb (Nat.eqb n) [45; 95; 46; 33; 126; 42; 39; 40; 41]%nat.

Definition hex_digit (n : nat) : ascii :=
  if (n <? 10)%nat then ascii_of_nat (48 + n) else ascii_of_nat (55 + n).

Fixpoint encodeURIComponent (s : string) : string :=
  match s with
  | EmptyString => EmptyString
  | String c rest =>
    if unreserved c then String c (encodeURIComponent rest)
    else
      let n := nat_of_ascii c in
      String "%" (String (hex_digit (n / 16)) (String (hex_digit (n mod 16))
        (encodeURIComponent rest)))
  end.

(** ** [Date.prototype.toISOString] on a time value *)

Definition digit (n : Z) : ascii :=
  ascii_of_nat (48 + Z.to_nat (n mod 10)).

(** The last [width] decimal digits of [n], most significant first. *)
Fixpoint digits (width : nat) (n : Z) : string :=
  match width with
  | O => EmptyString
  | S k => digits k (n / 10) ++ String (digit n) EmptyString
  end.

(** Year, month and day of the proleptic Gregorian calendar for a day number
    counted from 1970-01-01. *)
Definition civil_from_days (days : Z) : Z * Z * Z :=
  let z := (days + 719468)%Z in
  let era := (z / 146097)%Z in
  let doe := (z - era * 146097)%Z in
  let yoe := ((doe - doe / 1460 + doe / 36524 - doe / 146096) / 365)%Z in
  let doy := (doe - (365 * yoe + yoe / 4 - yoe / 100))%Z in
  let mp := ((5 * doy + 2) / 153)%Z in
  let d := (doy - (153 * mp + 2) / 5 + 1)%Z in
  let m := if (mp <? 10)%Z then (mp + 3)%Z else (mp - 9)%Z in
  let y := (yoe + era * 400 + (if (m <=? 2)%Z then 1 else 0))%Z in
  (y, m, d).

(** [YYYY-MM-DDTHH:mm:ss.sssZ], with the expanded year [+YYYYYY] or
    [-YYYYYY] outside the years 0 to 9999. *)
Definition toISOString (t : Z) : string :=
  let ms := (t mod 86400000)%Z in
  let '(y, m, d) := civil_from_days (t / 86400000) in
  let year :=
    if (0 <=? y)%Z && (y <=? 9999)%Z then digits 4 y
    else (if (y <? 0)%Z then "-" else "+") ++ digits 6 (Z.abs y) in
  year ++ "-" ++ digits 2 m ++ "-" ++ digits 2 d
    ++ "T" ++ digits 2 (ms / 3600000)
    ++ ":" ++ digits 2 (ms / 60000 mod 60)
    ++ ":" ++ digits 2 (ms / 1000 mod 60)
    ++ "." ++ digits 3 (ms mod 1000) ++ "Z".

(** The string held by a [string | undefined] variable; it is read only
    under a truthiness guard, where the variable holds a string. *)
Definition opt_string (o : option string) : string :=
  match o with
  | Some s => s
  | None => "undefined"
  end.

(** ** Data *)

(** The fields of a run object that the program reads.  The object itself is
    forwarded whole to the generic webhook. *)
Record Run : Type := mkRun {
  run_id : JsVal;
  conclusion : JsVal;
  status : JsVal
}.

Record AlertConfig : Type := mkAlertConfig {
  platform : string;
  token : string;
  owner : string;
  repo : string;
  channels : list string;
  webhookUrl : option string;
  slackWebhook : option string;
  watch : option bool
}.

(** The parsed command line.  The timer delay ([checkInterval]) plays no part
    below: timer ticks are counted, not timed. *)
Record Options : Type := mkOptions {
  opt_platform : string;
  opt_token : string;
  opt_owner : string;
  opt_repo : string;
  opt_webhook : option string;
  opt_slack : option string;
  opt_interval : string;
  opt_watch : option bool
}.

Inductive AlertType : Type := failure | recovery.

Definition type_string (type : AlertType) : string :=
  match type with
  | failure => "failure"
  | recovery => "recovery"
  end.

(** The Slack payload. *)
Record Field : Type := mkField {
  title : string;
  value : string;
  short : option bool
}.

Record Attachment : Type := mkAttachment {
  color : string;
  fields : list Field
}.

Record SlackPayload : Type := mkSlackPayload {
  text : string;
  attachments : list Attachment
}.

(** The generic webhook payload. *)
Record WebhookPayload : Type := mkWebhookPayload {
  event : string;
  repository : string;
  timestamp : string;
  run : Run
}.

Inductive Body : Type :=
| SlackBody (p : SlackPayload)
| WebhookBody (p : WebhookPayload).

(** ** The outside world *)

Inductive JsError : Type :=
| HttpError (message : string)
| TypeError (message : string).

Definition error_message (e : JsError) : string :=
  match e with
  | HttpError m => m
  | TypeError m => m
  end.

(** The body of a GET response: [null], an object (of which only the
    [workflow_runs] field is read) or an array of runs. *)
Inductive ResponseData : Type :=
| DataNull
| DataObject (workflow_runs : option (list Run))
| DataArray (items : list Run).

Inductive GetReply : Type :=
| Resolved (data : ResponseData)
| Rejected (e : JsError).

(** What the outside world answers: the reply to the n-th GET, the error (if
    any) of the n-th POST, and the time value (milliseconds since the epoch)
    of the n-th [new Date()]. *)
Record Env : Type := mkEnv {
  get_reply : nat -> GetReply;
  post_reply : nat -> option JsError;
  clock : nat -> Z
}.

(** Colours ([chalk]) are dropped from console lines. *)
Inductive Event : Type :=
| ConsoleLog (line : string)
| ConsoleError (line : string)
| AxiosGet (url : string) (headers : list (string * string)) (per_page : Z)
| AxiosPost (url : string) (body : Body).

Record World : Type := mkWorld {
  lastRunId : option string;
  gets : nat;
  posts : nat;
  reads : nat;
  trace : list Event
}.

(** ** The effect monad *)

Inductive Result (A : Type) : Type :=
| Normal (a : A)
| Thrown (e : JsError)
| Exited (code : Z).

Arguments Normal {A} a.
Arguments Thrown {A} e.
Arguments Exited {A} code.

Definition M (A : Type) : Type := Env -> World -> Result A * World.

Definition ret {A} (a : A) : M A := fun _ w => (Normal a, w).

Definition bind {A B} (m : M A) (k : A -> M B) : M B :=
  fun env w =>
    match m env w with
    | (Normal a, w') => k a env w'
    | (Thrown e, w') => (Thrown e, w')
    | (Exited c, w') => (Exited c, w')
    end.

Notation "x <- m ;; k" := (bind m (fun x => k))
  (at level 61, m at next level, right associativity).
Notation "m ;; k" := (bind m (fun _ => k))
  (at level 61, right associativity).

Definition throw {A} (e : JsError) : M A := fun _ w => (Thrown e, w).

(** [try { m } catch (error) { h error }]; a process exit is not caught. *)
Definition try_catch {A} (m : M A) (h : JsError -> M A) : M A :=
  fun env w =>
    match m env w with
    | (Thrown e, w') => h e env w'
    | r => r
    end.

Definition emit (e : Event) : M unit :=
  fun _ w =>
    (Normal tt,
     mkWorld (lastRunId w) (gets w) (posts w) (reads w) (trace w ++ [e])).

Definition console_log (line : string) : M unit := emit (ConsoleLog line).
Definition console_error (line : string) : M unit := emit (ConsoleError line).

Definition process_exit {A} (code : Z) : M A := fun _ w => (Exited code, w).

Definition read_lastRunId : M (option string) :=
  fun _ w => (Normal (lastRunId w), w).

Definition write_lastRunId (v : option string) : M unit :=
  fun _ w => (Normal tt, mkWorld v (gets w) (posts w) (reads w) (trace w)).

(** [new Date().toISOString()]. *)
Definition now : M string :=
  fun env w =>
    (Normal (toISOString (clock env (reads w))),
     mkWorld (lastRunId w) (gets w) (posts w) (S (reads w)) (trace w)).

(** [await axios.get(url, { headers, params: { per_page } })]. *)
Definition axios_get (url : string) (headers : list (string * string))
    (per_page : Z) : M ResponseData :=
  fun env w =>
    let w' := mkWorld (lastRunId w) (S (gets w)) (posts w) (reads w)
                      (trace w ++ [AxiosGet url headers per_page]) in
    match get_reply env (gets w) with
    | Resolved d => (Normal d, w')
    | Rejected e => (Thrown e, w')
    end.

(** [await axios.post(url, body)]. *)
Definition axios_post (url : string) (body : Body) : M unit :=
  fun env w =>
    let w' := mkWorld (lastRunId w) (gets w) (S (posts w)) (reads w)
                      (trace w ++ [AxiosPost url body]) in
    match post_reply env (posts w) with
    | None => (Normal tt, w')
    | Some e => (Thrown e, w')
    end.

(** ** [sendAlert] (index.ts, lines 130-176) *)

Definition sendAlert (config : AlertConfig) (run : Run) (type : AlertType)
    : M unit :=
  let repoName := owner config ++ "/" ++ repo config in
  let message :=
    match type with
    | failure => "🚨 Pipeline Failed: " ++ repoName
    | recovery => "✅ Pipeline Recovered: " ++ repoName
    end in
  let details :=
    match type with
    | failure => "The pipeline has failed. Check the logs for more details."
    | recovery => "The pipeline is now passing again."
    end in
  let payload :=
    mkSlackPayload message
      [ mkAttachment
          (match type with failure => "#ff0000" | recovery => "#00ff00" end)
          [ mkField "Repository" repoName (Some true);
            mkField "Status"
              (match type with failure => "FAILED" | recovery => "PASSED" end)
              (Some true);
            mkField "Details" details None ] ] in
  (* Send to Slack *)
  (if truthy (slackWebhook config) then
     try_catch
       (axios_post (opt_string (slackWebhook config)) (SlackBody payload) ;;
        console_log ("Alert sent to Slack: " ++ type_string type))
       (fun error =>
          console_error ("Failed to send Slack alert: " ++ error_message error))
   else ret tt) ;;
  (* Send to generic webhook *)
  (if truthy (webhookUrl config) then
     try_catch
       (timestamp <- now ;;
        axios_post (opt_string (webhookUrl config))
          (WebhookBody
             (mkWebhookPayload (type_string type) repoName timestamp run)) ;;
        console_log ("Alert sent to webhook: " ++ type_string type))
       (fun error =>
          console_error
            ("Failed to send webhook alert: " ++ error_message error))
   else ret tt).

(** ** [checkPipeline] (index.ts, lines 64-117) *)

(** [xs?.[0]] on a possibly absent array. *)
Definition first_of (xs : option (list Run)) : option Run :=
  match xs with
  | Some (r :: _) => Some r
  | _ => None
  end.

Definition checkPipeline (config : AlertConfig) : M unit :=
  try_catch
    (latestRun <-
       (if platform config =? "github" then
          response <-
            axios_get
              ("https://api.github.com/repos/" ++ owner config ++ "/"
                 ++ repo config ++ "/actions/runs")
              [ ("Authorization", "Bearer " ++ token config);
                ("Accept", "application/vnd.github+json") ]
              1 ;;
          (* response.data.workflow_runs?.[0] *)
          match response with
          | DataNull =>
            throw (TypeError
              "Cannot read properties of null (reading 'workflow_runs')")
          | DataObject workflow_runs => ret (first_of workflow_runs)
          | DataArray _ => ret None
          end
        else if platform config =? "gitlab" then
          let projectId :=
            encodeURIComponent (owner config ++ "/" ++ repo config) in
          response <-
            axios_get
              ("https://gitlab.com/api/v4/projects/" ++ projectId
                 ++ "/pipelines")
              [ ("PRIVATE-TOKEN", token config) ]
              1 ;;
          (* response.data?.[0] *)
          match response with
          | DataArray items => ret (first_of (Some items))
          | _ => ret None
          end
        else ret None) ;;
     match latestRun with
     | None => ret tt
     | Some latestRun =>
       let runId := String_ (run_id latestRun) in
       let status :=
         if platform config =? "github" then conclusion latestRun
         else status latestRun in
       (* Check for new failure *)
       seen <- read_lastRunId ;;
       (if truthy seen && strict_neq runId seen then
          if strict_eq status "failure" || strict_eq status "failed" then
            sendAlert config latestRun failure
          else if strict_eq status "success" || strict_eq status "success" then
            sendAlert config latestRun recovery
          else ret tt
        else ret tt) ;;
       (* First run - just store the ID *)
       seen <- read_lastRunId ;;
       if negb (truthy seen) then
         write_lastRunId (Some runId) ;;
         let statusText :=
           if strict_eq status "success" then "✓ PASS"
           else if strict_eq status "failure" then "✗ FAIL"
           else "⟳ RUNNING" in
         stamp <- now ;;
         console_log (stamp ++ " " ++ statusText)
       else ret tt
     end)
    (fun error =>
       console_error ("Error checking pipeline: " ++ error_message error)).

(** ** The command action (index.ts, lines 40-126) *)

(** [setInterval(callback, delay)], observed for the first [fired] firings of
    the timer; each firing runs to completion before the next one. *)
Fixpoint setInterval (callback : M unit) (fired : nat) : M unit :=
  match fired with
  | O => ret tt
  | S n => callback ;; setInterval callback n
  end.

Definition newline : string := String (ascii_of_nat 10) EmptyString.

Definition action (options : Options) (fired : nat) : M unit :=
  let config :=
    mkAlertConfig (opt_platform options) (opt_token options)
      (opt_owner options) (opt_repo options) []
      (opt_webhook options) (opt_slack options) (opt_watch options) in
  (if negb (truthy (webhookUrl config)) && negb (truthy (slackWebhook config))
   then
     console_error
       "Error: Please specify at least one webhook URL (--webhook or --slack)" ;;
     process_exit 1
   else ret tt) ;;
  console_log "🔔 WHM Alert - CI/CD Pipeline Monitor" ;;
  console_log ("Monitoring: " ++ owner config ++ "/" ++ repo config) ;;
  console_log ("Interval: " ++ opt_interval options ++ "s" ++ newline) ;;
  write_lastRunId None ;;
  (* Initial check *)
  checkPipeline config ;;
  if truthy_flag (watch config) then
    console_log ("Watching for changes... (Ctrl+C to stop)" ++ newline) ;;
    setInterval (checkPipeline config) fired
  else ret tt.

(** The configuration the action builds from the command line. *)
Definition config_of (options : Options) : AlertConfig :=
  mkAlertConfig (opt_platform options) (opt_token options)
    (opt_owner options) (opt_repo options) []
    (opt_webhook options) (opt_slack options) (opt_watch options).

(** ** Reading traces *)

(** The delivery attempts recorded in a trace, in order. *)
Fixpoint posts_of (t : list Event) : list (string * Body) :=
  match t with
  | [] => []
  | AxiosPost url body :: rest => (url, body) :: posts_of rest
  | _ :: rest => posts_of rest
  end.

(** The network calls (GET or POST) recorded in a trace. *)
Definition is_network (e : Event) : bool :=
  match e with
  | AxiosGet _ _ _ | AxiosPost _ _ => true
  | _ => false
  end.

Definition initial_world : World := mkWorld None 0 0 0 [].

(** The deliveries a computation adds to the trace when run from [w]. *)
Definition delivered {A} (m : M A) (env : Env) (w : World)
    : list (string * Body) :=
  skipn (length (posts_of (trace w))) (posts_of (trace (snd (m env w)))).

(** The world once a GET has been issued and answered. *)
Definition fetched (w : World) (url : string)
    (headers : list (string * string)) : World :=
  mkWorld (lastRunId w) (S (gets w)) (posts w) (reads w)
          (trace w ++ [AxiosGet url headers 1]).

(** The status the detector looks at: [conclusion] on GitHub, [status]
    elsewhere. *)
Definition status_read (config : AlertConfig) (r : Run) : JsVal :=
  if platform config =? "github" then conclusion r else status r.

(** The poll from world [w] fetches a latest run [r]. *)
Inductive Observes (config : AlertConfig) (env : Env) (w : World) (r : Run)
    : Prop :=
| observes_github (rest : list Run) :
    platform config = "github" ->
    get_reply env (gets w) = Resolved (DataObject (Some (r :: rest))) ->
    Observes config env w r
| observes_gitlab (rest : list Run) :
    platform config = "gitlab" ->
    get_reply env (gets w) = Resolved (DataArray (r :: rest)) ->
    Observes config env w r.

(** The poll from world [w] issues a GET that is rejected with [e]. *)
Definition FetchFails (config : AlertConfig) (env : Env) (w : World)
    (e : JsError) : Prop :=
  (platform config = "github" \/ platform config = "gitlab")
  /\ get_reply env (gets w) = Rejected e.

(** The ISO 8601 shape of a date-time string in UTC: a four-digit year, or
    a sign and a six-digit year, then [-MM-DDTHH:mm:ss.sssZ]. *)
Inductive Slot : Type :=
| Digit
| Lit (c : ascii).

Definition is_digit (c : ascii) : bool :=
  (48 <=? nat_of_ascii c)%nat && (nat_of_ascii c <=? 57)%nat.

Fixpoint matches (pattern : list Slot) (s : string) : bool :=
  match pattern, s with
  | [], EmptyString => true
  | Digit :: p, String c rest => is_digit c && matches p rest
  | Lit l :: p, String c rest => Ascii.eqb c l && matches p rest
  | _, _ => false
  end.

Definition date_time_pattern : list Slot :=
  [ Lit "-"; Digit; Digit; Lit "-"; Digit; Digit;
    Lit "T"; Digit; Digit; Lit ":"; Digit; Digit; Lit ":"; Digit; Digit;
    Lit "."; Digit; Digit; Digit; Lit "Z" ]%char.

Definition is_iso8601 (s : string) : bool :=
  matches (repeat Digit 4 ++ date_time_pattern) s
  || matches (Lit "+"%char :: repeat Digit 6 ++ date_time_pattern) s
  || matches (Lit "-"%char :: repeat Digit 6 ++ date_time_pattern) s.

(** The branch [checkPipeline] takes on a run whose id differs from a truthy
    [lastRunId] (index.ts, lines 99-103). *)
Definition classify (config : AlertConfig) (r : Run) : M unit :=
  let st := status_read config r in
  if strict_eq st "failure" || strict_eq st "failed" then
    sendAlert config r failure
  else if strict_eq st "success" then sendAlert config r recovery
  else ret tt.

(** The generic-webhook deliveries of a trace whose event is "failure". *)
Definition failure_events (t : list Event) : list (string * Body) :=
  filter (fun d => match snd d with
                   | WebhookBody q => event q =? "failure"
                   | SlackBody _ => false
                   end)
         (posts_of t).

(** * Concrete scenarios *)

Module Scenario.

Definition options : Options :=
  mkOptions "github" "ghp_token" "acme" "api"
    (Some "https://hooks.example.org/ci")
    (Some "https://hooks.slack.example.org/T0")
    "60" (Some true).

Definition config : AlertConfig :=
  mkAlertConfig "github" "ghp_token" "acme" "api" []
    (Some "https://hooks.example.org/ci")
    (Some "https://hooks.slack.example.org/T0")
    (Some true).

(** The same repository watched through the generic webhook only. *)
Definition webhook_only : Options :=
  mkOptions "github" "ghp_token" "acme" "api"
    (Some "https://hooks.example.org/ci") None "60" (Some true).

Definition stale_config : AlertConfig :=
  mkAlertConfig "github" "ghp_token" "acme" "api" []
    (Some "https://hooks.example.org/ci") None (Some true).

Definition gitlab_config : AlertConfig :=
  mkAlertConfig "gitlab" "glpat_token" "acme" "api" []
    (Some "https://hooks.example.org/ci") None (Some true).

(** GitHub workflow runs: 100 passed, 101 failed (and is also shown while
    still in progress), 102 passed. *)
Definition run_A : Run :=
  mkRun (JsNum 100) (JsStr "success") (JsStr "completed").
Definition run_B : Run :=
  mkRun (JsNum 101) (JsStr "failure") (JsStr "completed").
Definition run_B_pending : Run :=
  mkRun (JsNum 101) JsNull (JsStr "in_progress").
Definition run_C : Run :=
  mkRun (JsNum 102) (JsStr "success") (JsStr "completed").

(** A failed GitLab pipeline: it has a [status] and no [conclusion]. *)
Definition pipeline_B : Run :=
  mkRun (JsNum 101) JsUndefined (JsStr "failed").

(** A run object whose [id] is the empty string. *)
Definition run_unnamed : Run :=
  mkRun (JsStr "") (JsStr "success") (JsStr "completed").

(** The clock: 2024-05-01T00:00:00.000Z, one minute later at each
    reading. *)
Definition stamp (n : nat) : Z := (1714521600000 + 60000 * Z.of_nat n)%Z.

(** Every GET answers with the given latest run; every POST succeeds. *)
Definition always (r : Run) : Env :=
  mkEnv (fun _ => Resolved (DataObject (Some [r]))) (fun _ => None) stamp.

(** The first GET answers with [first], every later one with [later]. *)
Definition first_then (first later : Run) : Env :=
  mkEnv (fun n => match n with
                  | O => Resolved (DataObject (Some [first]))
                  | S _ => Resolved (DataObject (Some [later]))
                  end)
        (fun _ => None) stamp.

(** GitLab answers with an array of pipelines. *)
Definition gitlab_always (r : Run) : Env :=
  mkEnv (fun _ => Resolved (DataArray [r])) (fun _ => None) stamp.

(** Every GET is rejected. *)
Definition offline : Env :=
  mkEnv (fun _ => Rejected (HttpError "Request failed with status code 401"))
        (fun _ => None) stamp.

(** Slack always rejects (POSTs alternate Slack, webhook), the generic
    webhook accepts. *)
Definition slack_down (r : Run) : Env :=
  mkEnv (fun _ => Resolved (DataObject (Some [r])))
        (fun n => if Nat.even n
                  then Some (HttpError "Request failed with status code 404")
                  else None)
        stamp.

(** A world in which the detector tracks run id "100". *)
Definition tracking_A : World := mkWorld (Some "100") 1 0 1 [].

(** The world after the initial check has recorded run 100 as the
    baseline. *)
Definition after_baseline : World :=
  snd (action options 0 (first_then run_A run_B) initial_world).

(** The world after the initial check has observed a run whose id is the
    empty string. *)
Definition tracking_empty : World :=
  snd (action options 0 (first_then run_unnamed run_B) initial_world).

(** The world after run 101 has been recorded while still pending. *)
Definition tracking_pending_B : World :=
  snd (checkPipeline config (first_then run_B_pending run_B) initial_world).

End Scenario.

(** * A poll, step by step *)

(** The GET a poll issues (index.ts, lines 69-78 and 82-88). *)
Definition github_request (config : AlertConfig) : Event :=
  AxiosGet
    ("https://api.github.com/repos/" ++ owner config ++ "/" ++ repo config
       ++ "/actions/runs")
    [ ("Authorization", "Bearer " ++ token config);
      ("Accept", "application/vnd.github+json") ]
    1.

Definition gitlab_request (config : AlertConfig) : Event :=
  AxiosGet
    ("https://gitlab.com/api/v4/projects/"
       ++ encodeURIComponent (owner config ++ "/" ++ repo config)
       ++ "/pipelines")
    [ ("PRIVATE-TOKEN", token config) ]
    1.

Definition poll_request (config : AlertConfig) : option Event :=
  if platform config =? "github" then Some (github_request config)
  else if platform config =? "gitlab" then Some (gitlab_request config)
  else None.

(** What the reply to the GET yields: a thrown error, no run, or the latest
    run. *)
Definition latest_run (config : AlertConfig) (reply : GetReply)
    : Result (option Run) :=
  match reply with
  | Rejected e => Thrown e
  | Resolved d =>
    if platform config =? "github" then
      match d with
      | DataNull =>
        Thrown (TypeError
          "Cannot read properties of null (reading 'workflow_runs')")
      | DataObject workflow_runs => Normal (first_of workflow_runs)
      | DataArray _ => Normal None
      end
    else
      match d with
      | DataArray items => Normal (first_of (Some items))
      | _ => Normal None
      end
  end.

(** The status shown on the first observation (index.ts, lines 109-110). *)
Definition status_text (st : JsVal) : string :=
  if strict_eq st "success" then "✓ PASS"
  else if strict_eq st "failure" then "✗ FAIL"
  else "⟳ RUNNING".

(** The world once the GET [g] has been issued. *)
Definition polled (w : World) (g : Event) : World :=
  mkWorld (lastRunId w) (S (gets w)) (posts w) (reads w) (trace w ++ [g]).

(** A poll as a decision over the reply and [lastRunId]. *)
Definition poll_outcome (config : AlertConfig) (env : Env) (w : World)
    : Result unit * World :=
  match poll_request config with
  | None => (Normal tt, w)
  | Some g =>
    let w1 := polled w g in
    match latest_run config (get_reply env (gets w)) with
    | Thrown e =>
      (Normal tt,
       mkWorld (lastRunId w) (S (gets w)) (posts w) (reads w)
         (trace w1 ++
          [ConsoleError ("Error checking pipeline: " ++ error_message e)]))
    | Exited c => (Exited c, w1)
    | Normal None => (Normal tt, w1)
    | Normal (Some r) =>
      if truthy (lastRunId w) then
        if strict_neq (String_ (run_id r)) (lastRunId w)
        then classify config r env w1
        else (Normal tt, w1)
      else
        (Normal tt,
         mkWorld (Some (String_ (run_id r))) (S (gets w)) (posts w)
           (S (reads w))
           (trace w1 ++
            [ConsoleLog
               (toISOString (clock env (reads w)) ++ " "
                  ++ status_text (status_read config r))]))
    end
  end.

(** The number of configured sinks. *)
Definition sinks (config : AlertConfig) : nat :=
  (if truthy (slackWebhook config) then 1 else 0)
  + (if truthy (webhookUrl config) then 1 else 0).

(** The alert a run calls for when its id differs from a truthy
    [lastRunId] (index.ts, lines 99-103). *)
Definition alert_due (config : AlertConfig) (r : Run) : option AlertType :=
  let st := status_read config r in
  if strict_eq st "failure" || strict_eq st "failed" then Some failure
  else if strict_eq st "success" then Some recovery
  else None.

(** The Slack payload [sendAlert] builds (index.ts, lines 131-150). *)
Definition slack_payload (config : AlertConfig) (type : AlertType)
    : SlackPayload :=
  let repoName := owner config ++ "/" ++ repo config in
  mkSlackPayload
    (match type with
     | failure => "🚨 Pipeline Failed: " ++ repoName
     | recovery => "✅ Pipeline Recovered: " ++ repoName
     end)
    [ mkAttachment
        (match type with failure => "#ff0000" | recovery => "#00ff00" end)
        [ mkField "Repository" repoName (Some true);
          mkField "Status"
            (match type with failure => "FAILED" | recovery => "PASSED" end)
            (Some true);
          mkField "Details"
            (match type with
             | failure =>
               "The pipeline has failed. Check the logs for more details."
             | recovery => "The pipeline is now passing again."
             end)
            None ] ].

(** The events [sendAlert] adds for the Slack sink when [sent] POSTs have
    been issued before. *)
Definition slack_events (config : AlertConfig) (type : AlertType)
    (env : Env) (sent : nat) : list Event :=
  if truthy (slackWebhook config) then
    [ AxiosPost (opt_string (slackWebhook config))
        (SlackBody (slack_payload config type));
      match post_reply env sent with
      | None => ConsoleLog ("Alert sent to Slack: " ++ type_string type)
      | Some e =>
        ConsoleError ("Failed to send Slack alert: " ++ error_message e)
      end ]
  else [].

(** The events [sendAlert] adds for the generic webhook when [sent] POSTs
    have been issued and the clock has been read [read] times before. *)
Definition webhook_events (config : AlertConfig) (r : Run)
    (type : AlertType) (env : Env) (sent read : nat) : list Event :=
  if truthy (webhookUrl config) then
    [ AxiosPost (opt_string (webhookUrl config))
        (WebhookBody
           (mkWebhookPayload (type_string type)
              (owner config ++ "/" ++ repo config)
              (toISOString (clock env read)) r));
      match post_reply env sent with
      | None => ConsoleLog ("Alert sent to webhook: " ++ type_string type)
      | Some e =>
        ConsoleError ("Failed to send webhook alert: " ++ error_message e)
      end ]
  else [].

Definition alert_events (config : AlertConfig) (r : Run) (type : AlertType)
    (env : Env) (sent read : nat) : list Event :=
  (slack_events config type env sent
   ++ webhook_events config r type env
        (if truthy (slackWebhook config) then S sent else sent) read)%list.

(** The events one poll adds to the trace. *)
Definition poll_events (config : AlertConfig) (env : Env) (w : World)
    : list Event :=
  match poll_request config with
  | None => []
  | Some g =>
    g ::
    match latest_run config (get_reply env (gets w)) with
    | Thrown e =>
      [ConsoleError ("Error checking pipeline: " ++ error_message e)]
    | Exited _ => []
    | Normal None => []
    | Normal (Some r) =>
      if truthy (lastRunId w) then
        if strict_neq (String_ (run_id r)) (lastRunId w) then
          match alert_due config r with
          | Some type => alert_events config r type env (posts w) (reads w)
          | None => []
          end
        else []
      else
        [ConsoleLog
           (toISOString (clock env (reads w)) ++ " "
              ++ status_text (status_read config r))]
    end
  end.

(** [lastRunId] after one poll. *)
Definition next_lastRunId (config : AlertConfig) (env : Env) (w : World)
    : option string :=
  match poll_request config with
  | None => lastRunId w
  | Some _ =>
    match latest_run config (get_reply env (gets w)) with
    | Normal (Some r) =>
      if truthy (lastRunId w) then lastRunId w
      else Some (String_ (run_id r))
    | _ => lastRunId w
    end
  end.

Definition is_get (e : Event) : bool :=
  match e with
  | AxiosGet _ _ _ => true
  | _ => false
  end.

Definition is_post (e : Event) : bool :=
  match e with
  | AxiosPost _ _ => true
  | _ => false
  end.

(** A configuration with another API token. *)
Definition with_token (config : AlertConfig) (t : string) : AlertConfig :=
  mkAlertConfig (platform config) t (owner config) (repo config)
    (channels config) (webhookUrl config) (slackWebhook config)
    (watch config).

(** An event with the request headers of a GET blanked out. *)
Definition redact (e : Event) : Event :=
  match e with
  | AxiosGet url _ per_page => AxiosGet url [] per_page
  | _ => e
  end.

Definition redact_world (w : World) : World :=
  mkWorld (lastRunId w) (gets w) (posts w) (reads w) (map redact (trace w)).

(** The characters [encodeURIComponent] lets through, and [%]. *)
Definition url_safe (c : ascii) : bool :=
  unreserved c || Ascii.eqb c "%".

(** The poll from world [w] is answered with an empty list of runs, or on
    GitHub with an object that has no [workflow_runs]. *)
Inductive NoRun (config : AlertConfig) (env : Env) (w : World) : Prop :=
| no_run_github_empty :
    platform config = "github" ->
    get_reply env (gets w) = Resolved (DataObject (Some [])) ->
    NoRun config env w
| no_run_github_absent :
    platform config = "github" ->
    get_reply env (gets w) = Resolved (DataObject None) ->
    NoRun config env w
| no_run_gitlab_empty :
    platform config = "gitlab" ->
    get_reply env (gets w) = Resolved (DataArray []) ->
    NoRun config env w.

(** Every POST in the list is followed at once by one console line that
    tells its outcome: a log line when the reply to that POST (the [sent]-th
    and following) is a success, an error line when it is a failure. *)
Fixpoint reported (env : Env) (sent : nat) (events : list Event) : bool :=
  match events with
  | [] => true
  | AxiosPost _ _ :: ConsoleLog _ :: rest =>
    match post_reply env sent with
    | None => reported env (S sent) rest
    | Some _ => false
    end
  | AxiosPost _ _ :: ConsoleError _ :: rest =>
    match post_reply env sent with
    | None => false
    | Some _ => reported env (S sent) rest
    end
  | _ => false
  end.

(** The events a computation adds to the trace when run from [w]. *)
Definition added {A} (m : M A) (env : Env) (w : World) : list Event :=
  skipn (length (trace w)) (trace (snd (m env w))).

Module Cases.

Definition bitbucket : AlertConfig :=
  mkAlertConfig "bitbucket" "token" "acme" "api" []
    (Some "https://hooks.example.org/ci") None (Some true).

Definition slack_only : AlertConfig :=
  mkAlertConfig "github" "ghp_token" "acme" "api" [] None
    (Some "https://hooks.slack.example.org/T0") (Some true).

(** A GitLab project in a nested group, with a space in its name. *)
Definition nested : AlertConfig :=
  mkAlertConfig "gitlab" "glpat_token" "acme/platform" "my api" []
    (Some "https://hooks.example.org/ci") None (Some true).

Definition one_shot : Options :=
  mkOptions "github" "ghp_token" "acme" "api"
    (Some "https://hooks.example.org/ci") None "60" None.

(** GitHub answers with an empty list of runs. *)
Definition no_runs : Env :=
  mkEnv (fun _ => Resolved (DataObject (Some []))) (fun _ => None)
    Scenario.stamp.

(** Every GET is answered with the JSON value [null]. *)
Definition null_body : Env :=
  mkEnv (fun _ => Resolved DataNull) (fun _ => None) Scenario.stamp.

End Cases.

(** The number of clock readings after one poll. *)
Definition next_reads (config : AlertConfig) (env : Env) (w : World) : nat :=
  match poll_request config with
  | None => reads w
  | Some _ =>
    match latest_run config (get_reply env (gets w)) with
    | Normal (Some r) =>
      if truthy (lastRunId w) then
        if strict_neq (String_ (run_id r)) (lastRunId w) then
          match alert_due config r with
          | Some _ =>
            if truthy (webhookUrl config) then S (reads w) else reads w
          | None => reads w
          end
        else reads w
      else S (reads w)
    | _ => reads w
    end
  end.

(** ** Platform ids *)

(** The run a reply puts first, whichever of the two shapes it has. *)
Definition first_run (reply : GetReply) : option Run :=
  match reply with
  | Resolved (DataObject workflow_runs) => first_of workflow_runs
  | Resolved (DataArray items) => first_of (Some items)
  | _ => None
  end.

(** The platforms number their runs: the [id] of every run that GitHub
    Actions or GitLab returns is a number. *)
Definition PlatformIds (env : Env) : Prop :=
  forall k r, first_run (get_reply env k) = Some r ->
              exists n, run_id r = JsNum n.

(** [lastRunId] is null or holds the id of a platform run. *)
Definition platform_state (w : World) : Prop :=
  lastRunId w = None \/ exists n, lastRunId w = Some (String_ (JsNum n)).

(** ** Deliveries by sink *)

Definition is_slack_post (e : Event) : bool :=
  match e with
  | AxiosPost _ (SlackBody _) => true
  | _ => false
  end.

Definition is_webhook_post (e : Event) : bool :=
  match e with
  | AxiosPost _ (WebhookBody _) => true
  | _ => false
  end.

(** A POST goes to a configured sink and carries that sink's payload: the
    Slack payload to the Slack webhook, the event record to the generic
    webhook.  Events other than POSTs pass. *)
Definition post_to_sink (config : AlertConfig) (e : Event) : bool :=
  match e with
  | AxiosPost url (SlackBody _) =>
    truthy (slackWebhook config)
    && (url =? opt_string (slackWebhook config))
  | AxiosPost url (WebhookBody _) =>
    truthy (webhookUrl config)
    && (url =? opt_string (webhookUrl config))
  | _ => true
  end.

(** * Properties *)

(** ** The model on small inputs *)

Example String_of_number : String_ (JsNum 101) = "101".
Proof. reflexivity. Qed.

Example String_of_undefined : String_ JsUndefined = "undefined".
Proof. reflexivity. Qed.

Example null_is_no_status : strict_eq JsNull "success" = false.
Proof. reflexivity. Qed.

Example empty_string_is_falsy : truthy (Some "") = false.
Proof. reflexivity. Qed.

Example gitlab_project_id : encodeURIComponent "acme/api" = "acme%2Fapi".
Proof. reflexivity. Qed.

(** The initial check on GitHub: one GET, the baseline is stored and one
    status line is printed after the three banner lines. *)
Example initial_check_trace :
  action Scenario.webhook_only 0 (Scenario.always Scenario.run_A)
    initial_world
  = (Normal tt,
     mkWorld (Some "100") 1 0 1
       [ ConsoleLog "🔔 WHM Alert - CI/CD Pipeline Monitor";
         ConsoleLog "Monitoring: acme/api";
         ConsoleLog ("Interval: 60s" ++ newline);
         AxiosGet "https://api.github.com/repos/acme/api/actions/runs"
           [ ("Authorization", "Bearer ghp_token");
             ("Accept", "application/vnd.github+json") ] 1;
         ConsoleLog "2024-05-01T00:00:00.000Z ✓ PASS";
         ConsoleLog ("Watching for changes... (Ctrl+C to stop)" ++ newline) ]).
Proof. reflexivity. Qed.

(** A failed run after a passing baseline, Slack rejecting its POST: both
    sinks are tried, in order. *)
Example alert_trace :
  map fst
    (delivered (checkPipeline Scenario.config)
       (Scenario.slack_down Scenario.run_B) Scenario.tracking_A)
  = [ "https://hooks.slack.example.org/T0"; "https://hooks.example.org/ci" ].
Proof. reflexivity. Qed.

(** ** Timestamps *)

Lemma is_digit_digit (n : Z) : is_digit (digit n) = true.
Proof.
  unfold is_digit, digit.
  assert (H : (Z.to_nat (n mod 10) < 10)%nat).
  { pose proof (Z.mod_pos_bound n 10 eq_refl). lia. }
  rewrite nat_ascii_embedding by lia.
  apply andb_true_intro. split; apply Nat.leb_le; lia.
Qed.

Lemma append_assoc (a b c : string) : (a ++ b) ++ c = a ++ (b ++ c).
Proof.
  induction a as [|x a IH]; [reflexivity|].
  cbn [append]. rewrite IH. reflexivity.
Qed.

Lemma matches_digits (k : nat) (n : Z) (p : list Slot) (s : string) :
  matches (repeat Digit k ++ p) (digits k n ++ s) = matches p s.
Proof.
  revert n p s. induction k as [|k IH]; intros n p s; [reflexivity|].
  cbn [digits]. rewrite append_assoc.
  change (repeat Digit (S k) ++ p)%list
    with ((Digit :: repeat Digit k) ++ p)%list.
  rewrite repeat_cons, <- app_assoc, IH.
  cbn [app matches append]. rewrite is_digit_digit. reflexivity.
Qed.

Lemma matches_digits2 n p s :
  matches (Digit :: Digit :: p) (digits 2 n ++ s) = matches p s.
Proof. exact (matches_digits 2 n p s). Qed.

Lemma matches_digits3 n p s :
  matches (Digit :: Digit :: Digit :: p) (digits 3 n ++ s) = matches p s.
Proof. exact (matches_digits 3 n p s). Qed.

Lemma matches_lit c p s : matches (Lit c :: p) (String c s) = matches p s.
Proof. cbn [matches]. rewrite Ascii.eqb_refl. reflexivity. Qed.

(** [toISOString] always yields a string of the ISO 8601 shape. *)
Lemma toISOString_iso8601 (t : Z) : is_iso8601 (toISOString t) = true.
Proof.
  assert (Htail : forall m d ms,
             matches date_time_pattern
               ("-" ++ digits 2 m ++ "-" ++ digits 2 d
                  ++ "T" ++ digits 2 (ms / 3600000)
                  ++ ":" ++ digits 2 (ms / 60000 mod 60)
                  ++ ":" ++ digits 2 (ms / 1000 mod 60)
                  ++ "." ++ digits 3 (ms mod 1000) ++ "Z") = true).
  { intros m d ms. unfold date_time_pattern. cbn [append].
    repeat first
      [ rewrite matches_lit | rewrite matches_digits2
      | rewrite matches_digits3 ].
    reflexivity. }
  unfold toISOString, is_iso8601.
  destruct (civil_from_days (t / 86400000)) as [[y m] d].
  destruct ((0 <=? y)%Z && (y <=? 9999)%Z).
  - rewrite matches_digits, Htail. reflexivity.
  - apply orb_true_iff.
    destruct (y <? 0)%Z; [right|left; apply orb_true_iff; right];
      rewrite append_assoc; cbn [append];
      rewrite matches_lit, matches_digits; apply Htail.
Qed.

(** ** Traces *)

Lemma posts_of_app (t1 t2 : list Event) :
  posts_of (t1 ++ t2) = (posts_of t1 ++ posts_of t2)%list.
Proof.
  induction t1 as [|e t1 IH]; [reflexivity|].
  destruct e; simpl; rewrite IH; reflexivity.
Qed.

Lemma skipn_length_app {A} (l d : list A) :
  skipn (length l) (l ++ d)%list = d.
Proof. induction l as [|x l IH]; [reflexivity|exact IH]. Qed.

Lemma delivered_extends {A} (m : M A) env w d :
  trace (snd (m env w)) = (trace w ++ d)%list ->
  delivered m env w = posts_of d.
Proof.
  intros H. unfold delivered. rewrite H, posts_of_app.
  apply skipn_length_app.
Qed.

(** ** Strings and truthiness *)

Lemma truthy_Some (s : string) : truthy (Some s) = true <-> s <> "".
Proof.
  simpl. rewrite negb_true_iff. split.
  - intros H E. apply String.eqb_eq in E. congruence.
  - intros H. apply String.eqb_neq. exact H.
Qed.

Lemma truthy_not_None (o : option string) : truthy o = true -> o <> None.
Proof. destruct o; simpl; congruence. Qed.

Lemma strict_eq_true (v : JsVal) (lit : string) :
  strict_eq v lit = true <-> v = JsStr lit.
Proof.
  destruct v; simpl; split; try congruence.
  - intros H. apply String.eqb_eq in H. congruence.
  - intros H. injection H as ->. apply String.eqb_refl.
Qed.

Lemma strict_eq_false (v : JsVal) (lit : string) :
  strict_eq v lit = false <-> v <> JsStr lit.
Proof.
  rewrite <- strict_eq_true. destruct (strict_eq v lit); split; congruence.
Qed.

Lemma strict_neq_Some (s a : string) :
  strict_neq s (Some a) = true <-> s <> a.
Proof.
  simpl. rewrite negb_true_iff. apply String.eqb_neq.
Qed.

(** A number never stringifies to the empty string, so a numeric run id
    always yields a truthy [lastRunId]. *)
Lemma String_num_nonempty (n : Z) : String_ (JsNum n) <> "".
Proof.
  simpl. destruct (Z.to_int n) as [d|d]; simpl; [|discriminate].
  destruct d; simpl; discriminate.
Qed.

(** ** [sendAlert] *)

Ltac unfold_ops :=
  unfold bind, try_catch, ret, throw, console_log, console_error, emit,
    read_lastRunId, write_lastRunId, now, axios_post, axios_get, process_exit.

Ltac break_reply :=
  match goal with
  | |- context [post_reply ?env ?n] => destruct (post_reply env n) eqn:?
  end.

Ltac sendAlert_cases config :=
  unfold sendAlert; unfold_ops;
  destruct (truthy (slackWebhook config)) eqn:?,
           (truthy (webhookUrl config)) eqn:?;
  cbn [fst snd posts reads gets lastRunId trace];
  repeat (break_reply; cbn [fst snd posts reads gets lastRunId trace]);
  try congruence.

Lemma sendAlert_returns config run0 type env w :
  fst (sendAlert config run0 type env w) = Normal tt.
Proof. sendAlert_cases config; reflexivity. Qed.

Lemma sendAlert_lastRunId config run0 type env w :
  lastRunId (snd (sendAlert config run0 type env w)) = lastRunId w.
Proof. sendAlert_cases config; reflexivity. Qed.

Lemma sendAlert_gets config run0 type env w :
  gets (snd (sendAlert config run0 type env w)) = gets w.
Proof. sendAlert_cases config; reflexivity. Qed.

Lemma delivered_nothing {A} (m : M A) env w :
  trace (snd (m env w)) = trace w -> delivered m env w = [].
Proof.
  intros H. apply (delivered_extends m env w []).
  rewrite H. symmetry. apply app_nil_r.
Qed.

Ltac solve_delivered :=
  unfold delivered; cbn [snd trace];
  first
    [ apply skipn_all
    | repeat rewrite <- app_assoc;
      rewrite posts_of_app, skipn_length_app; reflexivity ].

(** What [sendAlert] delivers: the Slack payload to the Slack webhook when
    one is configured, then the event record to the generic webhook when one
    is configured, whatever the answers to the POSTs are. *)
Lemma sendAlert_delivered config run0 type :
  exists p : SlackPayload,
    (exists fs,
        attachments p =
        [mkAttachment
           (match type with failure => "#ff0000" | recovery => "#00ff00" end)
           fs])
    /\ forall env w,
        delivered (sendAlert config run0 type) env w
        = ((if truthy (slackWebhook config)
            then [(opt_string (slackWebhook config), SlackBody p)] else [])
           ++
           (if truthy (webhookUrl config)
            then [(opt_string (webhookUrl config),
                   WebhookBody
                     (mkWebhookPayload (type_string type)
                        (owner config ++ "/" ++ repo config)
                        (toISOString (clock env (reads w))) run0))]
            else []))%list.
Proof.
  eexists. split; cycle 1.
  - intros env w.
    destruct (truthy (slackWebhook config)) eqn:Hs,
             (truthy (webhookUrl config)) eqn:Hu;
      unfold delivered, sendAlert; rewrite Hs, Hu; unfold_ops;
      cbn [fst snd posts reads gets lastRunId trace];
      repeat (break_reply; cbn [fst snd posts reads gets lastRunId trace]);
      try congruence; solve_delivered.
  - eexists. reflexivity.
Qed.

(** ** [checkPipeline] *)

Ltac step_poll :=
  cbn [andb orb negb first_of fst snd lastRunId gets posts reads trace].

Ltac start_poll Hobs :=
  destruct Hobs as [rest Hp Hg | rest Hp Hg];
  unfold checkPipeline, status_read; rewrite Hp;
  cbn [String.eqb Ascii.eqb Bool.eqb]; unfold_ops; rewrite Hg;
  step_poll.

(** A platform other than GitHub and GitLab is never queried. *)
Lemma checkPipeline_other_platform config env w :
  platform config <> "github" ->
  platform config <> "gitlab" ->
  checkPipeline config env w = (Normal tt, w).
Proof.
  intros H1 H2. apply String.eqb_neq in H1, H2.
  unfold checkPipeline. rewrite H1, H2. reflexivity.
Qed.

Lemma checkPipeline_rejected config env w e :
  FetchFails config env w e ->
  exists url headers,
    checkPipeline config env w
    = (Normal tt,
       mkWorld (lastRunId w) (S (gets w)) (posts w) (reads w)
         (trace w ++
          [AxiosGet url headers 1;
           ConsoleError ("Error checking pipeline: " ++ error_message e)])).
Proof.
  intros [[Hp | Hp] Hg];
    unfold checkPipeline; rewrite Hp;
    cbn [String.eqb Ascii.eqb Bool.eqb]; unfold_ops; rewrite Hg;
    step_poll; rewrite <- app_assoc; do 2 eexists; reflexivity.
Qed.

Lemma checkPipeline_first config env w r :
  Observes config env w r ->
  truthy (lastRunId w) = false ->
  exists url headers line,
    checkPipeline config env w
    = (Normal tt,
       mkWorld (Some (String_ (run_id r))) (S (gets w)) (posts w)
         (S (reads w))
         (trace w ++ [AxiosGet url headers 1; ConsoleLog line])).
Proof.
  intros Hobs Hfalsy.
  start_poll Hobs; repeat (rewrite Hfalsy; step_poll);
    rewrite <- app_assoc; do 3 eexists; reflexivity.
Qed.

(** A numeric run id makes the stored [lastRunId] truthy. *)
Lemma checkPipeline_first_numeric config env w r n :
  Observes config env w r ->
  truthy (lastRunId w) = false ->
  run_id r = JsNum n ->
  truthy (lastRunId (snd (checkPipeline config env w))) = true.
Proof.
  intros Hobs Hfalsy Hid.
  destruct (checkPipeline_first config env w r Hobs Hfalsy)
    as (u & h & l & E).
  rewrite E. cbn [snd lastRunId]. apply truthy_Some.
  rewrite Hid. apply String_num_nonempty.
Qed.

Lemma checkPipeline_same config env w r :
  Observes config env w r ->
  truthy (lastRunId w) = true ->
  lastRunId w = Some (String_ (run_id r)) ->
  exists url headers,
    checkPipeline config env w = (Normal tt, fetched w url headers).
Proof.
  intros Hobs Htruthy Hsame.
  assert (Hneq : strict_neq (String_ (run_id r)) (lastRunId w) = false).
  { rewrite Hsame. simpl. rewrite String.eqb_refl. reflexivity. }
  start_poll Hobs; rewrite Htruthy, Hneq; step_poll;
    rewrite Htruthy; step_poll; do 2 eexists; reflexivity.
Qed.

Lemma classify_returns config r env w :
  fst (classify config r env w) = Normal tt.
Proof.
  unfold classify.
  destruct (strict_eq (status_read config r) "failure"
            || strict_eq (status_read config r) "failed");
    [apply sendAlert_returns|].
  destruct (strict_eq (status_read config r) "success");
    [apply sendAlert_returns|reflexivity].
Qed.

Lemma classify_lastRunId config r env w :
  lastRunId (snd (classify config r env w)) = lastRunId w.
Proof.
  unfold classify.
  destruct (strict_eq (status_read config r) "failure"
            || strict_eq (status_read config r) "failed");
    [apply sendAlert_lastRunId|].
  destruct (strict_eq (status_read config r) "success");
    [apply sendAlert_lastRunId|reflexivity].
Qed.

Ltac by_branch lem :=
  repeat match goal with
         | |- context [if ?b then _ else _] => destruct b
         end;
  first [apply lem | reflexivity].

Lemma checkPipeline_new config env w r :
  Observes config env w r ->
  truthy (lastRunId w) = true ->
  strict_neq (String_ (run_id r)) (lastRunId w) = true ->
  exists url headers,
    checkPipeline config env w = classify config r env (fetched w url headers).
Proof.
  intros Hobs Htruthy Hneq.
  assert (Hrest : forall (m : M unit) w1,
             lastRunId w1 = lastRunId w ->
             fst (m env w1) = Normal tt ->
             lastRunId (snd (m env w1)) = lastRunId w1 ->
             forall k,
               (let (r0, w') :=
                  let (r0, w') := m env w1 in
                  match r0 with
                  | Normal _ =>
                    (if negb (truthy (lastRunId w')) then k
                     else fun _ w0 => (Normal tt, w0)) env w'
                  | Thrown e => (Thrown e, w')
                  | Exited c => (Exited c, w')
                  end in
                match r0 with
                | Normal a => (Normal a, w')
                | Thrown e =>
                  (Normal tt,
                   mkWorld (lastRunId w') (gets w') (posts w') (reads w')
                     (trace w' ++
                      [ConsoleError
                         ("Error checking pipeline: " ++ error_message e)]))
                | Exited code => (Exited code, w')
                end) = m env w1).
  { intros m w1 Hw1 Hret Hlast k.
    destruct (m env w1) as [res w2]. cbn [fst snd] in Hret, Hlast.
    subst res. rewrite Hlast, Hw1, Htruthy. reflexivity. }
  start_poll Hobs; rewrite Htruthy, Hneq; step_poll;
    rewrite orb_diag; do 2 eexists;
    (rewrite Hrest;
     [ unfold classify, status_read, fetched; rewrite Hp;
       cbn [String.eqb Ascii.eqb Bool.eqb]; reflexivity
     | reflexivity
     | by_branch sendAlert_returns
     | by_branch sendAlert_lastRunId ]).
Qed.

(** [checkPipeline] always returns normally: whatever is thrown inside is
    caught and logged, and nothing in it exits the process.  It changes
    [lastRunId] only when [lastRunId] is falsy. *)
Lemma checkPipeline_total config env w :
  exists w',
    checkPipeline config env w = (Normal tt, w')
    /\ (truthy (lastRunId w) = true -> lastRunId w' = lastRunId w).
Proof.
  destruct (String.eqb_spec (platform config) "github") as [Hgh | Hgh];
    [|destruct (String.eqb_spec (platform config) "gitlab") as [Hgl | Hgl]].
  3: { exists w. split; [apply checkPipeline_other_platform; assumption|].
       reflexivity. }
  all: destruct (get_reply env (gets w)) as [d | e] eqn:Hg.
  all: try (destruct (checkPipeline_rejected config env w e) as (u & h & E);
            [split; [auto|assumption]|];
            rewrite E; eexists; split; [reflexivity|reflexivity]).
  all: assert (Hobs : (exists r, Observes config env w r)
                      \/ exists u h t,
                           checkPipeline config env w
                           = (Normal tt,
                              mkWorld (lastRunId w) (S (gets w)) (posts w)
                                (reads w)
                                (trace w ++ AxiosGet u h 1 :: t))).
  1, 3: destruct d as [| [[| r l] |] | [| r l]];
    try (left; exists r;
         solve [ eapply observes_github; eassumption
               | eapply observes_gitlab; eassumption ]);
    right; unfold checkPipeline;
    first [rewrite Hgh | rewrite Hgl];
    cbn [String.eqb Ascii.eqb Bool.eqb]; unfold_ops; rewrite Hg; step_poll;
    try rewrite <- app_assoc; do 3 eexists; reflexivity.
  all: destruct Hobs as [[r Hobs] | (u & h & t & E)];
    [|rewrite E; eexists; split; [reflexivity|reflexivity]].
  all: destruct (truthy (lastRunId w)) eqn:Htruthy;
    [|destruct (checkPipeline_first config env w r Hobs Htruthy)
        as (u & h & l & E);
      rewrite E; eexists; split; [reflexivity|discriminate]].
  all: destruct (strict_neq (String_ (run_id r)) (lastRunId w)) eqn:Hneq.
  all: try (destruct (checkPipeline_new config env w r Hobs Htruthy Hneq)
              as (u & h & E);
            rewrite E;
            pose proof (classify_returns config r env (fetched w u h)) as Hr;
            pose proof (classify_lastRunId config r env (fetched w u h)) as Hl;
            destruct (classify config r env (fetched w u h)) as [res w2];
            cbn [fst snd] in Hr, Hl; subst res;
            eexists; split; [reflexivity|intros _; exact Hl]).
  all: assert (Hsame : lastRunId w = Some (String_ (run_id r)))
    by (destruct (lastRunId w) as [a|]; [|discriminate];
        simpl in Hneq; apply negb_false_iff, String.eqb_eq in Hneq;
        congruence).
  all: destruct (checkPipeline_same config env w r Hobs Htruthy Hsame)
    as (u & h & E);
    rewrite E; eexists; split; reflexivity.
Qed.

Lemma checkPipeline_returns config env w :
  fst (checkPipeline config env w) = Normal tt.
Proof.
  destruct (checkPipeline_total config env w) as (w' & E & _).
  rewrite E. reflexivity.
Qed.

(** One more firing of the timer runs one more poll, then the rest. *)
Lemma setInterval_S config n env w :
  setInterval (checkPipeline config) (S n) env w
  = setInterval (checkPipeline config) n env
      (snd (checkPipeline config env w)).
Proof.
  cbn [setInterval]. unfold bind at 1.
  pose proof (checkPipeline_returns config env w) as Hr.
  destruct (checkPipeline config env w) as [res w']. cbn [fst snd] in *.
  subst res. reflexivity.
Qed.

(** In watch mode the timer's firings run from the world the start-up and
    the initial check leave behind. *)
Lemma action_fired options fired env w :
  truthy_flag (opt_watch options) = true ->
  fst (action options 0 env w) = Normal tt ->
  action options fired env w
  = setInterval (checkPipeline (config_of options)) fired env
      (snd (action options 0 env w)).
Proof.
  intros Hwatch. unfold action. fold (config_of options).
  cbn [watch config_of webhookUrl slackWebhook owner repo].
  rewrite Hwatch.
  destruct (negb (truthy (opt_webhook options))
            && negb (truthy (opt_slack options)));
    [discriminate|].
  unfold bind, ret, console_log, emit, write_lastRunId.
  cbn [lastRunId gets posts reads trace].
  match goal with
  | |- context [checkPipeline ?c ?e ?W] =>
    pose proof (checkPipeline_returns c e W) as Hr;
    destruct (checkPipeline c e W) as [r w1]
  end.
  cbn [fst] in Hr. subst r. intros _. reflexivity.
Qed.

Lemma setInterval_returns config n env w :
  fst (setInterval (checkPipeline config) n env w) = Normal tt.
Proof.
  revert w. induction n as [|n IH]; intros w; [reflexivity|].
  rewrite setInterval_S. apply IH.
Qed.

(** * The claims *)

(** C1 at a failing input.  The initial check records run 100 as the
    baseline; the next poll observes run 101, whose id differs; after that
    poll [lastRunId] is still "100", not "101". *)
Theorem new_run_id_is_not_recorded :
  lastRunId Scenario.after_baseline = Some "100"
  /\ Observes Scenario.config
       (Scenario.first_then Scenario.run_A Scenario.run_B)
       Scenario.after_baseline Scenario.run_B
  /\ String_ (run_id Scenario.run_B) = "101"
  /\ lastRunId (snd (checkPipeline Scenario.config
                       (Scenario.first_then Scenario.run_A Scenario.run_B)
                       Scenario.after_baseline))
     = Some "100".
Proof.
  repeat split.
  apply (observes_github _ _ _ _ []); reflexivity.
Qed.

Lemma failure_events_app (t1 t2 : list Event) :
  failure_events (t1 ++ t2) = (failure_events t1 ++ failure_events t2)%list.
Proof.
  unfold failure_events. rewrite posts_of_app. apply filter_app.
Qed.

(** One poll of the scenario, from any world that tracks run "100" after at
    least one GET: one more failure event. *)
Lemma stale_baseline_poll (g p rd : nat) (t : list Event) :
  exists p' rd' t',
    checkPipeline Scenario.stale_config
      (Scenario.first_then Scenario.run_A Scenario.run_B)
      (mkWorld (Some "100") (S g) p rd t)
    = (Normal tt, mkWorld (Some "100") (S (S g)) p' rd' t')
    /\ length (failure_events t') = S (length (failure_events t)).
Proof.
  do 3 eexists. split; [reflexivity|].
  cbn [trace]. rewrite !failure_events_app, !length_app.
  cbn. lia.
Qed.

Lemma stale_baseline_polls (n g p rd : nat) (t : list Event) :
  length (failure_events
            (trace (snd (setInterval (checkPipeline Scenario.stale_config) n
                           (Scenario.first_then Scenario.run_A Scenario.run_B)
                           (mkWorld (Some "100") (S g) p rd t)))))
  = length (failure_events t) + n.
Proof.
  revert g p rd t. induction n as [|n IH]; intros g p rd t.
  - cbn [setInterval ret snd trace]. lia.
  - rewrite setInterval_S.
    destruct (stale_baseline_poll g p rd t) as (p' & rd' & t' & E & Hlen).
    rewrite E. cbn [snd]. rewrite IH, Hlen. lia.
Qed.

(** C2 at failing inputs.  After the baseline run 100, each of [n]
    observations of the failed run 101 sends one failure event to the
    generic webhook: [n] in total, not one. *)
Theorem repeated_failure_alerts_again (n : nat) :
  length (failure_events
            (trace (snd (action Scenario.webhook_only n
                           (Scenario.first_then Scenario.run_A Scenario.run_B)
                           initial_world)))) = n.
Proof.
  rewrite action_fired by reflexivity.
  change (config_of Scenario.webhook_only) with Scenario.stale_config.
  set (w0 := snd (action Scenario.webhook_only 0
                    (Scenario.first_then Scenario.run_A Scenario.run_B)
                    initial_world)).
  vm_compute in w0. subst w0.
  rewrite stale_baseline_polls. reflexivity.
Qed.

(** C3. On the first observed snapshot ([lastRunId] null), whatever its
    status, the poll returns normally, delivers nothing to any sink and
    records the snapshot's id as [lastRunId]. *)
Theorem first_snapshot_is_baseline config env w r :
  Observes config env w r ->
  lastRunId w = None ->
  fst (checkPipeline config env w) = Normal tt
  /\ delivered (checkPipeline config) env w = []
  /\ posts (snd (checkPipeline config env w)) = posts w
  /\ lastRunId (snd (checkPipeline config env w))
     = Some (String_ (run_id r)).
Proof.
  intros Hobs Hnull.
  assert (Hfalsy : truthy (lastRunId w) = false)
    by (rewrite Hnull; reflexivity).
  destruct (checkPipeline_first config env w r Hobs Hfalsy) as (u & h & l & E).
  repeat split; try (rewrite E; reflexivity).
  apply (delivered_extends _ _ _ [AxiosGet u h 1; ConsoleLog l]).
  rewrite E. reflexivity.
Qed.

Lemma first_snapshot_is_baseline_witness :
  fst (checkPipeline Scenario.config (Scenario.always Scenario.run_B)
         initial_world) = Normal tt
  /\ delivered (checkPipeline Scenario.config)
       (Scenario.always Scenario.run_B) initial_world = []
  /\ posts (snd (checkPipeline Scenario.config
                   (Scenario.always Scenario.run_B) initial_world)) = 0
  /\ lastRunId (snd (checkPipeline Scenario.config
                       (Scenario.always Scenario.run_B) initial_world))
     = Some "101".
Proof.
  apply (first_snapshot_is_baseline Scenario.config
           (Scenario.always Scenario.run_B) initial_world Scenario.run_B).
  - apply (observes_github _ _ _ _ []); reflexivity.
  - reflexivity.
Defined.

(** C4. When the observed snapshot's id equals [lastRunId], the poll returns
    normally, delivers nothing and leaves [lastRunId] as it was, whatever
    the snapshot's status is. *)
Theorem same_run_is_silent config env w r :
  Observes config env w r ->
  lastRunId w = Some (String_ (run_id r)) ->
  fst (checkPipeline config env w) = Normal tt
  /\ delivered (checkPipeline config) env w = []
  /\ posts (snd (checkPipeline config env w)) = posts w
  /\ lastRunId (snd (checkPipeline config env w)) = lastRunId w.
Proof.
  intros Hobs Hsame.
  destruct (truthy (lastRunId w)) eqn:Htruthy.
  - destruct (checkPipeline_same config env w r Hobs Htruthy Hsame)
      as (u & h & E).
    repeat split; try (rewrite E; reflexivity).
    apply (delivered_extends _ _ _ [AxiosGet u h 1]).
    rewrite E. reflexivity.
  - destruct (checkPipeline_first config env w r Hobs Htruthy)
      as (u & h & l & E).
    repeat split; try (rewrite E; reflexivity).
    + apply (delivered_extends _ _ _ [AxiosGet u h 1; ConsoleLog l]).
      rewrite E. reflexivity.
    + rewrite E. symmetry. exact Hsame.
Qed.

(** Run 101 was recorded while pending and is seen again as failed. *)
Lemma same_run_is_silent_witness :
  lastRunId Scenario.tracking_pending_B = Some "101"
  /\ fst (checkPipeline Scenario.config
            (Scenario.first_then Scenario.run_B_pending Scenario.run_B)
            Scenario.tracking_pending_B) = Normal tt
  /\ delivered (checkPipeline Scenario.config)
       (Scenario.first_then Scenario.run_B_pending Scenario.run_B)
       Scenario.tracking_pending_B = []
  /\ posts (snd (checkPipeline Scenario.config
                   (Scenario.first_then Scenario.run_B_pending
                      Scenario.run_B)
                   Scenario.tracking_pending_B)) = 0
  /\ lastRunId (snd (checkPipeline Scenario.config
                       (Scenario.first_then Scenario.run_B_pending
                          Scenario.run_B)
                       Scenario.tracking_pending_B))
     = Some "101".
Proof.
  split; [reflexivity|].
  apply (same_run_is_silent Scenario.config
           (Scenario.first_then Scenario.run_B_pending Scenario.run_B)
           Scenario.tracking_pending_B Scenario.run_B).
  - apply (observes_github _ _ _ _ []); reflexivity.
  - reflexivity.
Defined.




(** C6. With both sinks configured, [sendAlert] returns normally whatever
    the answers to its POSTs are, and makes exactly two delivery attempts:
    one to the Slack webhook, then one to the generic webhook.  The attempts
    are the same under any other answers to the POSTs. *)
Theorem sendAlert_isolates_sinks config run0 type env w s u :
  slackWebhook config = Some s ->
  s <> "" ->
  webhookUrl config = Some u ->
  u <> "" ->
  fst (sendAlert config run0 type env w) = Normal tt
  /\ (exists p q,
         delivered (sendAlert config run0 type) env w
         = [(s, SlackBody p); (u, WebhookBody q)])
  /\ (forall replies,
         delivered (sendAlert config run0 type)
           (mkEnv (get_reply env) replies (clock env)) w
         = delivered (sendAlert config run0 type) env w).
Proof.
  intros Hs Hs' Hu Hu'.
  destruct (sendAlert_delivered config run0 type) as (p & _ & Hd).
  assert (Ts : truthy (slackWebhook config) = true)
    by (rewrite Hs; apply truthy_Some; exact Hs').
  assert (Tu : truthy (webhookUrl config) = true)
    by (rewrite Hu; apply truthy_Some; exact Hu').
  split; [apply sendAlert_returns|]. split.
  - exists p. eexists. rewrite Hd, Ts, Tu, Hs, Hu. reflexivity.
  - intros replies. rewrite !Hd. reflexivity.
Qed.

(** Slack rejects its POST, the generic webhook accepts its own. *)
Lemma sendAlert_isolates_sinks_witness :
  post_reply (Scenario.slack_down Scenario.run_B) 0 <> None
  /\ fst (sendAlert Scenario.config Scenario.run_B failure
            (Scenario.slack_down Scenario.run_B) Scenario.tracking_A)
     = Normal tt
  /\ (exists p q,
         delivered (sendAlert Scenario.config Scenario.run_B failure)
           (Scenario.slack_down Scenario.run_B) Scenario.tracking_A
         = [("https://hooks.slack.example.org/T0", SlackBody p);
            ("https://hooks.example.org/ci", WebhookBody q)])
  /\ (forall replies,
         delivered (sendAlert Scenario.config Scenario.run_B failure)
           (mkEnv (get_reply (Scenario.slack_down Scenario.run_B)) replies
              (clock (Scenario.slack_down Scenario.run_B)))
           Scenario.tracking_A
         = delivered (sendAlert Scenario.config Scenario.run_B failure)
             (Scenario.slack_down Scenario.run_B) Scenario.tracking_A).
Proof.
  split; [discriminate|].
  apply (sendAlert_isolates_sinks Scenario.config Scenario.run_B failure
           (Scenario.slack_down Scenario.run_B) Scenario.tracking_A
           "https://hooks.slack.example.org/T0"
           "https://hooks.example.org/ci").
  - reflexivity.
  - discriminate.
  - reflexivity.
  - discriminate.
Defined.

(** C7. With neither a generic webhook URL nor a Slack webhook URL, the
    action prints the configuration error and exits with code 1: the only
    event added to the trace is that error line, so no GET and no POST is
    issued and no poll is run, however many timer firings are observed. *)
Theorem no_sink_exits_before_polling options fired env w :
  truthy (opt_webhook options) = false ->
  truthy (opt_slack options) = false ->
  fst (action options fired env w) = Exited 1
  /\ trace (snd (action options fired env w))
     = (trace w ++
        [ConsoleError
           "Error: Please specify at least one webhook URL (--webhook or --slack)"])%list
  /\ gets (snd (action options fired env w)) = gets w
  /\ posts (snd (action options fired env w)) = posts w
  /\ filter is_network (trace (snd (action options fired env w)))
     = filter is_network (trace w).
Proof.
  intros Hw Hs. unfold action. cbn [webhookUrl slackWebhook].
  rewrite Hw, Hs. cbn [negb andb]. unfold_ops. cbn [fst snd trace gets posts].
  repeat split.
  rewrite filter_app. cbn [filter is_network]. apply app_nil_r.
Qed.

Lemma no_sink_exits_before_polling_witness :
  fst (action (mkOptions "github" "ghp_token" "acme" "api" None None "60"
                 (Some true))
         5 (Scenario.always Scenario.run_B) initial_world) = Exited 1
  /\ trace (snd (action (mkOptions "github" "ghp_token" "acme" "api" None
                           None "60" (Some true))
                   5 (Scenario.always Scenario.run_B) initial_world))
     = [ConsoleError
          "Error: Please specify at least one webhook URL (--webhook or --slack)"].
Proof.
  destruct (no_sink_exits_before_polling
              (mkOptions "github" "ghp_token" "acme" "api" None None "60"
                 (Some true))
              5 (Scenario.always Scenario.run_B) initial_world)
    as (Hexit & Htrace & _).
  - reflexivity.
  - reflexivity.
  - split; [exact Hexit|exact Htrace].
Defined.

(** C8. When the GET of a poll is rejected, the poll logs the error and
    returns normally: nothing is delivered, [lastRunId] is unchanged, the
    trace gains the GET and one error line, and the timer's next firings run
    from the resulting world. *)
Theorem fetch_error_is_swallowed config env w e n :
  FetchFails config env w e ->
  fst (checkPipeline config env w) = Normal tt
  /\ lastRunId (snd (checkPipeline config env w)) = lastRunId w
  /\ delivered (checkPipeline config) env w = []
  /\ posts (snd (checkPipeline config env w)) = posts w
  /\ (exists url headers,
         trace (snd (checkPipeline config env w))
         = (trace w ++
            [AxiosGet url headers 1;
             ConsoleError ("Error checking pipeline: " ++ error_message e)])%list)
  /\ setInterval (checkPipeline config) (S n) env w
     = setInterval (checkPipeline config) n env
         (snd (checkPipeline config env w)).
Proof.
  intros Hfail.
  destruct (checkPipeline_rejected config env w e Hfail) as (u & h & E).
  split; [rewrite E; reflexivity|].
  split; [rewrite E; reflexivity|].
  split.
  { apply (delivered_extends _ _ _
             [AxiosGet u h 1;
              ConsoleError ("Error checking pipeline: " ++ error_message e)]).
    rewrite E. reflexivity. }
  split; [rewrite E; reflexivity|].
  split; [exists u, h; rewrite E; reflexivity|].
  apply setInterval_S.
Qed.

(** The tracked id survives three rejected polls; the fourth GET would be
    the next one. *)
Lemma fetch_error_is_swallowed_witness :
  fst (checkPipeline Scenario.config Scenario.offline Scenario.tracking_A)
  = Normal tt
  /\ lastRunId (snd (checkPipeline Scenario.config Scenario.offline
                       Scenario.tracking_A)) = Some "100"
  /\ delivered (checkPipeline Scenario.config) Scenario.offline
       Scenario.tracking_A = []
  /\ setInterval (checkPipeline Scenario.config) 3 Scenario.offline
       Scenario.tracking_A
     = setInterval (checkPipeline Scenario.config) 2 Scenario.offline
         (snd (checkPipeline Scenario.config Scenario.offline
                 Scenario.tracking_A)).
Proof.
  destruct (fetch_error_is_swallowed Scenario.config Scenario.offline
              Scenario.tracking_A
              (HttpError "Request failed with status code 401") 2)
    as (Hret & Hlast & Hdel & _ & _ & Hloop).
  - split; [left; reflexivity|reflexivity].
  - repeat split; assumption.
Defined.

(** C9. Every delivery [sendAlert] makes carries the payload of its sink.
    The generic webhook receives the event record: [event] is the alert type
    ("failure" or "recovery"), [repository] is "<owner>/<repo>", [timestamp]
    is [new Date().toISOString()] as read for it, a string of the ISO 8601
    shape, [run] is the run object.  Slack receives one attachment, red
    ("#ff0000") for a failure and green ("#00ff00") for a recovery.  A
    configured sink does receive its payload. *)
Theorem sendAlert_payloads config run0 type env w :
  (forall url body,
      In (url, body) (delivered (sendAlert config run0 type) env w) ->
      match body with
      | WebhookBody q =>
        (event q = "failure" \/ event q = "recovery")
        /\ event q = type_string type
        /\ repository q = owner config ++ "/" ++ repo config
        /\ timestamp q = toISOString (clock env (reads w))
        /\ is_iso8601 (timestamp q) = true
        /\ run q = run0
      | SlackBody p =>
        exists a,
          attachments p = [a]
          /\ color a = match type with
                       | failure => "#ff0000"
                       | recovery => "#00ff00"
                       end
      end)
  /\ (truthy (webhookUrl config) = true ->
      exists q,
        In (opt_string (webhookUrl config), WebhookBody q)
           (delivered (sendAlert config run0 type) env w))
  /\ (truthy (slackWebhook config) = true ->
      exists p,
        In (opt_string (slackWebhook config), SlackBody p)
           (delivered (sendAlert config run0 type) env w)).
Proof.
  destruct (sendAlert_delivered config run0 type) as (p & (fs & Hp) & Hd).
  rewrite Hd. repeat split.
  - intros url body Hin. apply in_app_or in Hin.
    destruct Hin as [Hin | Hin];
      [destruct (truthy (slackWebhook config))
      |destruct (truthy (webhookUrl config))];
      simpl in Hin; try contradiction;
      destruct Hin as [Hin | []]; injection Hin as _ <-.
    + eexists. split; [exact Hp|reflexivity].
    + cbn [event repository timestamp run].
      repeat split; [destruct type; [left|right]; reflexivity|].
      apply toISOString_iso8601.
  - intros Hu. rewrite Hu. eexists. apply in_or_app. right. left. reflexivity.
  - intros Hs. rewrite Hs. eexists. apply in_or_app. left. left. reflexivity.
Qed.

Lemma sendAlert_payloads_witness :
  In ("https://hooks.example.org/ci",
      WebhookBody
        (mkWebhookPayload "recovery" "acme/api" "2024-05-01T00:01:00.000Z"
           Scenario.run_C))
     (delivered (sendAlert Scenario.config Scenario.run_C recovery)
        (Scenario.always Scenario.run_C) Scenario.tracking_A)
  /\ type_string recovery = "recovery"
  /\ owner Scenario.config ++ "/" ++ repo Scenario.config = "acme/api"
  /\ toISOString
       (clock (Scenario.always Scenario.run_C) (reads Scenario.tracking_A))
     = "2024-05-01T00:01:00.000Z".
Proof.
  assert (Hin : In ("https://hooks.example.org/ci",
                    WebhookBody
                      (mkWebhookPayload "recovery" "acme/api"
                         "2024-05-01T00:01:00.000Z" Scenario.run_C))
                   (delivered
                      (sendAlert Scenario.config Scenario.run_C recovery)
                      (Scenario.always Scenario.run_C) Scenario.tracking_A))
    by (vm_compute; right; left; reflexivity).
  destruct (sendAlert_payloads Scenario.config Scenario.run_C recovery
              (Scenario.always Scenario.run_C) Scenario.tracking_A)
    as [Hshape _].
  destruct (Hshape _ _ Hin) as (_ & Hevent & Hrepo & Hstamp & _ & _).
  cbn [event repository timestamp] in Hevent, Hrepo, Hstamp.
  repeat split; [exact Hin|symmetry; assumption..].
Defined.

(** A poll changes [lastRunId] only from a falsy value, and a truthy
    [lastRunId] survives any number of polls. *)
Lemma lastRunId_frozen_once_truthy config env :
  (forall w,
      lastRunId (snd (checkPipeline config env w)) <> lastRunId w ->
      truthy (lastRunId w) = false)
  /\ (forall n w,
        truthy (lastRunId w) = true ->
        lastRunId (snd (setInterval (checkPipeline config) n env w))
        = lastRunId w).
Proof.
  split.
  - intros w Hchanged.
    destruct (checkPipeline_total config env w) as (w' & E & Hkeep).
    rewrite E in Hchanged. cbn [snd] in Hchanged.
    destruct (truthy (lastRunId w)); [|reflexivity].
    exfalso. apply Hchanged, Hkeep. reflexivity.
  - induction n as [|n IH]; intros w Htruthy; [reflexivity|].
    rewrite setInterval_S.
    destruct (checkPipeline_total config env w) as (w' & E & Hkeep).
    rewrite E. cbn [snd]. specialize (Hkeep Htruthy).
    rewrite IH; [exact Hkeep|]. rewrite Hkeep. exact Htruthy.
Qed.

(** * Further properties *)

(** ** A poll, step by step *)

(** What follows the alert branch of a poll when that branch returns
    normally and leaves a truthy [lastRunId]: nothing. *)
Lemma poll_tail (m k : M unit) env w1 :
  fst (m env w1) = Normal tt ->
  truthy (lastRunId (snd (m env w1))) = true ->
  (let (r0, w') :=
     let (r0, w') := m env w1 in
     match r0 with
     | Normal _ =>
       (if negb (truthy (lastRunId w')) then k
        else fun _ w0 => (Normal tt, w0)) env w'
     | Thrown e => (Thrown e, w')
     | Exited c => (Exited c, w')
     end in
   match r0 with
   | Normal a => (Normal a, w')
   | Thrown e =>
     (Normal tt,
      mkWorld (lastRunId w') (gets w') (posts w') (reads w')
        (trace w' ++
         [ConsoleError ("Error checking pipeline: " ++ error_message e)]))
   | Exited code => (Exited code, w')
   end) = m env w1.
Proof.
  intros Hret Hlast. destruct (m env w1) as [res w2].
  cbn [fst snd] in Hret, Hlast. subst res. rewrite Hlast. reflexivity.
Qed.

Lemma checkPipeline_outcome config env w :
  checkPipeline config env w = poll_outcome config env w.
Proof.
  unfold checkPipeline, poll_outcome, poll_request, latest_run, status_read,
    status_text, polled, github_request, gitlab_request.
  destruct (platform config =? "github") eqn:Hgh;
    [|destruct (platform config =? "gitlab") eqn:Hgl; [|reflexivity]].
  all: unfold_ops; destruct (get_reply env (gets w)) as [d | e];
    [|step_poll; rewrite <- app_assoc; reflexivity].
  all: destruct d as [| [[| r l] |] | [| r l]]; step_poll;
    try rewrite <- app_assoc; try reflexivity.
  all: destruct (truthy (lastRunId w)) eqn:Htruthy; step_poll;
    [|rewrite Htruthy; step_poll; rewrite <- app_assoc; reflexivity].
  all: destruct (strict_neq (String_ (run_id r)) (lastRunId w)); step_poll;
    [|rewrite Htruthy; reflexivity].
  all: rewrite orb_diag; unfold classify, status_read; rewrite Hgh;
    try rewrite Hgl; cbv zeta; apply poll_tail;
    [ by_branch sendAlert_returns
    | repeat match goal with
             | |- context [if ?b then _ else _] => destruct b
             end;
      try rewrite sendAlert_lastRunId; exact Htruthy ].
Qed.

(** [sendAlert], step by step. *)
Lemma sendAlert_outcome config r type env w :
  sendAlert config r type env w
  = (Normal tt,
     mkWorld (lastRunId w) (gets w) (sinks config + posts w)
       (if truthy (webhookUrl config) then S (reads w) else reads w)
       (trace w ++ alert_events config r type env (posts w) (reads w))).
Proof.
  destruct w as [last g p rd t].
  unfold sendAlert, alert_events, slack_events, webhook_events, sinks,
    slack_payload.
  unfold_ops.
  destruct (truthy (slackWebhook config)), (truthy (webhookUrl config));
    cbn [fst snd posts reads gets lastRunId trace Nat.add app];
    repeat (break_reply; cbn [fst snd posts reads gets lastRunId trace]);
    repeat rewrite <- app_assoc; try rewrite app_nil_r; reflexivity.
Qed.

Lemma classify_due config r :
  classify config r
  = match alert_due config r with
    | Some type => sendAlert config r type
    | None => ret tt
    end.
Proof.
  unfold classify, alert_due. cbv zeta.
  destruct (strict_eq (status_read config r) "failure"
            || strict_eq (status_read config r) "failed");
    [reflexivity|].
  destruct (strict_eq (status_read config r) "success"); reflexivity.
Qed.

Lemma latest_run_not_exited config reply c :
  latest_run config reply <> Exited c.
Proof.
  unfold latest_run. destruct reply as [d|e]; [|discriminate].
  destruct (platform config =? "github"); destruct d; discriminate.
Qed.

Lemma poll_request_get config g :
  poll_request config = Some g ->
  exists url headers, g = AxiosGet url headers 1.
Proof.
  unfold poll_request, github_request, gitlab_request.
  destruct (platform config =? "github");
    [|destruct (platform config =? "gitlab"); [|discriminate]];
    intros H; injection H as <-; do 2 eexists; reflexivity.
Qed.

Ltac poll_cases config env w :=
  rewrite ?checkPipeline_outcome;
  unfold poll_outcome, poll_events, next_lastRunId, polled;
  destruct (poll_request config) as [g|] eqn:Hreq;
  [ destruct (poll_request_get _ _ Hreq) as (url & headers & Hg); subst g;
    destruct (latest_run config (get_reply env (gets w)))
      as [[r|]|e|c] eqn:Hlatest;
    [ destruct (truthy (lastRunId w)) eqn:Htruthy;
      [ destruct (strict_neq (String_ (run_id r)) (lastRunId w)) eqn:Hneq;
        [ rewrite ?classify_due;
          destruct (alert_due config r) as [type|] eqn:Hdue;
          rewrite ?sendAlert_outcome
        | ]
      | ]
    | | | exfalso; exact (latest_run_not_exited _ _ _ Hlatest) ]
  | ];
  cbn [fst snd lastRunId gets posts reads trace ret].

Lemma poll_trace config env w :
  trace (snd (checkPipeline config env w))
  = (trace w ++ poll_events config env w)%list.
Proof.
  poll_cases config env w;
    repeat rewrite <- app_assoc; try rewrite app_nil_r; reflexivity.
Qed.

Lemma poll_lastRunId config env w :
  lastRunId (snd (checkPipeline config env w)) = next_lastRunId config env w.
Proof. poll_cases config env w; reflexivity. Qed.

Lemma poll_gets config env w :
  gets (snd (checkPipeline config env w))
  = match poll_request config with
    | Some _ => S (gets w)
    | None => gets w
    end.
Proof. poll_cases config env w; reflexivity. Qed.

Lemma alert_events_posts config r type env sent read :
  length (filter is_post (alert_events config r type env sent read))
  = sinks config.
Proof.
  unfold alert_events, slack_events, webhook_events, sinks.
  destruct (truthy (slackWebhook config)), (truthy (webhookUrl config));
    cbn [app filter is_post];
    repeat match goal with
           | |- context [match ?x with Some _ => _ | None => _ end] =>
             destruct x
           end; reflexivity.
Qed.

Lemma poll_posts config env w :
  posts (snd (checkPipeline config env w))
  = length (filter is_post (poll_events config env w)) + posts w.
Proof.
  poll_cases config env w; cbn [filter is_post length]; try reflexivity.
  rewrite alert_events_posts. reflexivity.
Qed.

Lemma added_extends {A} (m : M A) env w d :
  trace (snd (m env w)) = (trace w ++ d)%list -> added m env w = d.
Proof. intros H. unfold added. rewrite H. apply skipn_length_app. Qed.

Lemma poll_added config env w :
  added (checkPipeline config) env w = poll_events config env w.
Proof. apply added_extends, poll_trace. Qed.

Lemma poll_delivered config env w :
  delivered (checkPipeline config) env w
  = posts_of (poll_events config env w).
Proof. apply delivered_extends, poll_trace. Qed.

Lemma observes_latest config env w r :
  Observes config env w r ->
  exists g,
    poll_request config = Some g
    /\ latest_run config (get_reply env (gets w)) = Normal (Some r).
Proof.
  intros [rest Hp Hg | rest Hp Hg]; unfold poll_request, latest_run;
    rewrite Hp, Hg; cbn [String.eqb Ascii.eqb Bool.eqb first_of];
    eexists; split; reflexivity.
Qed.

Lemma latest_observes config env w g r :
  poll_request config = Some g ->
  latest_run config (get_reply env (gets w)) = Normal (Some r) ->
  Observes config env w r.
Proof.
  unfold poll_request, latest_run.
  destruct (String.eqb_spec (platform config) "github") as [Hgh|Hgh];
    [|destruct (String.eqb_spec (platform config) "gitlab") as [Hgl|Hgl];
      [|discriminate]];
    intros _; destruct (get_reply env (gets w)) as [d|e] eqn:Hg;
    try discriminate;
    destruct d as [| [[| r' l] |] | [| r' l]]; cbn [first_of];
    try discriminate; intros H; injection H as <-.
  - eapply observes_github; eassumption.
  - eapply observes_gitlab; eassumption.
Qed.

Lemma alert_events_slack_first config r type env sent read :
  map fst (posts_of (alert_events config r type env sent read))
  = ((if truthy (slackWebhook config)
      then [opt_string (slackWebhook config)] else [])
     ++ (if truthy (webhookUrl config)
         then [opt_string (webhookUrl config)] else []))%list.
Proof.
  unfold alert_events, slack_events, webhook_events.
  destruct (truthy (slackWebhook config)), (truthy (webhookUrl config));
    cbn [app posts_of];
    repeat match goal with
           | |- context [match ?x with Some _ => _ | None => _ end] =>
             destruct x
           end; reflexivity.
Qed.

(** ** No supported platform, no run, no body *)

(** X1. On a platform other than "github" and "gitlab" the polls do
    nothing: whatever number of timer firings is observed, no request is
    issued, nothing is printed and [lastRunId] stays as it is. *)
Theorem unsupported_platform_is_inert config env n w :
  platform config <> "github" ->
  platform config <> "gitlab" ->
  setInterval (checkPipeline config) n env w = (Normal tt, w).
Proof.
  intros Hgh Hgl. revert w. induction n as [|n IH]; intros w; [reflexivity|].
  rewrite setInterval_S, checkPipeline_other_platform by assumption.
  apply IH.
Qed.

Lemma unsupported_platform_is_inert_witness :
  setInterval (checkPipeline Cases.bitbucket) 3
    (Scenario.always Scenario.run_B) Scenario.tracking_A
  = (Normal tt, Scenario.tracking_A).
Proof.
  apply (unsupported_platform_is_inert Cases.bitbucket
           (Scenario.always Scenario.run_B) 3 Scenario.tracking_A);
    discriminate.
Defined.

(** X2. When the platform answers with no run (an empty list, or on GitHub
    an object without [workflow_runs]), the poll issues its GET and returns:
    nothing is printed or delivered, and [lastRunId] is not set. *)
Theorem no_run_is_silent config env w :
  NoRun config env w ->
  exists g,
    poll_request config = Some g
    /\ checkPipeline config env w = (Normal tt, polled w g).
Proof.
  intros [Hp Hg | Hp Hg | Hp Hg];
    rewrite checkPipeline_outcome;
    unfold poll_outcome, poll_request, latest_run; rewrite Hp, Hg;
    cbn [String.eqb Ascii.eqb Bool.eqb first_of];
    eexists; split; reflexivity.
Qed.

Lemma no_run_is_silent_witness :
  exists g,
    poll_request Scenario.config = Some g
    /\ checkPipeline Scenario.config Cases.no_runs initial_world
       = (Normal tt, polled initial_world g).
Proof.
  apply (no_run_is_silent Scenario.config Cases.no_runs initial_world).
  apply no_run_github_empty; reflexivity.
Defined.

(** X3. A response whose body is [null]: on GitHub reading
    [workflow_runs] off it throws, the error is caught and printed, and
    nothing else happens; on GitLab the optional chaining yields no run and
    the poll is silent. *)
Theorem null_body_by_platform config env w :
  get_reply env (gets w) = Resolved DataNull ->
  (platform config = "github" ->
   exists message,
     checkPipeline config env w
     = (Normal tt,
        mkWorld (lastRunId w) (S (gets w)) (posts w) (reads w)
          (trace w ++
           [github_request config;
            ConsoleError ("Error checking pipeline: " ++ message)])))
  /\ (platform config = "gitlab" ->
      checkPipeline config env w
      = (Normal tt, polled w (gitlab_request config))).
Proof.
  intros Hg. split; intros Hp; rewrite checkPipeline_outcome;
    unfold poll_outcome, poll_request, latest_run, polled; rewrite Hp, Hg;
    cbn [String.eqb Ascii.eqb Bool.eqb error_message trace].
  - eexists. rewrite <- app_assoc. reflexivity.
  - reflexivity.
Qed.

Lemma null_body_by_platform_witness :
  (exists message,
      checkPipeline Scenario.config Cases.null_body Scenario.tracking_A
      = (Normal tt,
         mkWorld (Some "100") 2 0 1
           [github_request Scenario.config;
            ConsoleError ("Error checking pipeline: " ++ message)]))
  /\ checkPipeline Scenario.gitlab_config Cases.null_body
       Scenario.tracking_A
     = (Normal tt,
        polled Scenario.tracking_A (gitlab_request Scenario.gitlab_config)).
Proof.
  destruct (null_body_by_platform Scenario.config Cases.null_body
              Scenario.tracking_A eq_refl) as [Hgithub _].
  destruct (null_body_by_platform Scenario.gitlab_config Cases.null_body
              Scenario.tracking_A eq_refl) as [_ Hgitlab].
  split; [exact (Hgithub eq_refl)|exact (Hgitlab eq_refl)].
Defined.

(** ** What a run of the action does and never does *)

(** X4. Once a sink is configured the action never throws and never exits,
    whatever the platform and the sinks answer and however many timer
    firings are observed: every error of a poll is caught inside it. *)
Theorem action_returns_normally options fired env w :
  truthy (opt_webhook options) = true \/ truthy (opt_slack options) = true ->
  fst (action options fired env w) = Normal tt.
Proof.
  intros Hsink. unfold action. fold (config_of options).
  cbn [watch config_of webhookUrl slackWebhook owner repo].
  assert (Hcond : negb (truthy (opt_webhook options))
                  && negb (truthy (opt_slack options)) = false)
    by (destruct Hsink as [-> | ->]; [reflexivity|apply andb_false_r]).
  rewrite Hcond.
  unfold bind, ret, console_log, emit, write_lastRunId.
  cbn [lastRunId gets posts reads trace].
  match goal with
  | |- context [checkPipeline ?c ?e ?W] =>
    pose proof (checkPipeline_returns c e W) as Hr;
    destruct (checkPipeline c e W) as [res w1]
  end.
  cbn [fst] in Hr. subst res.
  destruct (truthy_flag (opt_watch options)); [|reflexivity].
  apply setInterval_returns.
Qed.

Lemma action_returns_normally_witness :
  fst (action Scenario.options 4 Scenario.offline initial_world) = Normal tt.
Proof.
  apply (action_returns_normally Scenario.options 4 Scenario.offline
           initial_world).
  left. reflexivity.
Defined.

Lemma quiet_poll config env w :
  truthy (lastRunId w) = false ->
  posts_of (poll_events config env w) = [].
Proof.
  intros Hfalsy. unfold poll_events.
  destruct (poll_request config) as [g|] eqn:Hreq; [|reflexivity].
  destruct (poll_request_get _ _ Hreq) as (url & headers & ->).
  rewrite Hfalsy.
  destruct (latest_run config (get_reply env (gets w))) as [[r|]|e|c];
    reflexivity.
Qed.

(** X5. The initial check never delivers an alert, whatever the state of
    the pipeline: [lastRunId] is null when it runs.  Without [--watch] the
    timer is never started, so the whole run delivers nothing. *)
Theorem no_alert_without_watch options fired env w :
  delivered (action options 0) env w = []
  /\ (truthy_flag (opt_watch options) = false ->
      delivered (action options fired) env w = []).
Proof.
  assert (Hinit : forall n,
             n = 0 \/ truthy_flag (opt_watch options) = false ->
             delivered (action options n) env w = []).
  { intros n Hn. unfold delivered, action. fold (config_of options).
    cbn [watch config_of webhookUrl slackWebhook owner repo].
    destruct (negb (truthy (opt_webhook options))
              && negb (truthy (opt_slack options))).
    - unfold bind, console_error, emit, process_exit. cbn [snd trace].
      rewrite posts_of_app. cbn [posts_of]. rewrite app_nil_r.
      apply skipn_all.
    - unfold bind, ret, console_log, emit, write_lastRunId.
      cbn [lastRunId gets posts reads trace].
      match goal with
      | |- context [checkPipeline ?c ?e ?W] =>
        pose proof (checkPipeline_returns c e W) as Hr;
        pose proof (poll_trace c e W) as Ht;
        pose proof (quiet_poll c e W eq_refl) as Hq;
        destruct (checkPipeline c e W) as [res w1]
      end.
      cbn [fst snd trace] in Hr, Ht. subst res.
      assert (Hw1 : posts_of (trace w1) = posts_of (trace w)).
      { rewrite Ht, posts_of_app, Hq, app_nil_r.
        rewrite !posts_of_app. cbn [posts_of]. rewrite !app_nil_r.
        reflexivity. }
      destruct (truthy_flag (opt_watch options)) eqn:Hwatch.
      + destruct Hn as [-> | Hn]; [|discriminate].
        cbn [setInterval ret snd trace].
        rewrite posts_of_app, Hw1. cbn [posts_of]. rewrite app_nil_r.
        apply skipn_all.
      + cbn [snd]. rewrite Hw1. apply skipn_all. }
  split; [apply Hinit; left; reflexivity|].
  intros Hwatch. apply Hinit. right. exact Hwatch.
Qed.

(** The pipeline is failing at start-up and no alert goes out. *)
Lemma no_alert_without_watch_witness :
  delivered (action Scenario.options 0 ) (Scenario.always Scenario.run_B)
    initial_world = []
  /\ delivered (action Cases.one_shot 7) (Scenario.always Scenario.run_B)
       initial_world = [].
Proof.
  destruct (no_alert_without_watch Scenario.options 0
              (Scenario.always Scenario.run_B) initial_world) as [Hinit _].
  destruct (no_alert_without_watch Cases.one_shot 7
              (Scenario.always Scenario.run_B) initial_world) as [_ Hshot].
  split; [exact Hinit|apply Hshot; reflexivity].
Defined.

(** X6. A poll delivers something only when all of this holds: a run was
    fetched, [lastRunId] is a non-empty string, the run's id differs from
    it, and the status read is "failure", "failed" or "success". *)
Theorem alert_needs_new_concluded_run config env w :
  delivered (checkPipeline config) env w <> [] ->
  exists r a,
    Observes config env w r
    /\ lastRunId w = Some a
    /\ a <> ""
    /\ String_ (run_id r) <> a
    /\ (status_read config r = JsStr "failure"
        \/ status_read config r = JsStr "failed"
        \/ status_read config r = JsStr "success").
Proof.
  rewrite poll_delivered. unfold poll_events.
  destruct (poll_request config) as [g|] eqn:Hreq; [|intros H; now elim H].
  destruct (poll_request_get _ _ Hreq) as (url & headers & Hget).
  rewrite Hget. cbn [posts_of].
  destruct (latest_run config (get_reply env (gets w))) as [[r|]|e|c]
    eqn:Hlatest; try (intros H; now elim H).
  destruct (truthy (lastRunId w)) eqn:Htruthy; [|intros H; now elim H].
  destruct (strict_neq (String_ (run_id r)) (lastRunId w)) eqn:Hneq;
    [|intros H; now elim H].
  destruct (alert_due config r) as [type|] eqn:Hdue; [|intros H; now elim H].
  intros _.
  destruct (lastRunId w) as [a|] eqn:Hlast; [|discriminate].
  exists r, a. split; [eapply latest_observes; eassumption|].
  split; [reflexivity|]. split; [apply truthy_Some; exact Htruthy|].
  split; [apply strict_neq_Some; exact Hneq|].
  unfold alert_due in Hdue. cbv zeta in Hdue.
  destruct (strict_eq (status_read config r) "failure") eqn:H1;
    [left; apply strict_eq_true; exact H1|].
  destruct (strict_eq (status_read config r) "failed") eqn:H2;
    [right; left; apply strict_eq_true; exact H2|].
  destruct (strict_eq (status_read config r) "success") eqn:H3;
    [right; right; apply strict_eq_true; exact H3|].
  discriminate.
Qed.

Lemma alert_needs_new_concluded_run_witness :
  exists r a,
    Observes Scenario.config (Scenario.always Scenario.run_B)
      Scenario.tracking_A r
    /\ lastRunId Scenario.tracking_A = Some a
    /\ a <> ""
    /\ String_ (run_id r) <> a
    /\ (status_read Scenario.config r = JsStr "failure"
        \/ status_read Scenario.config r = JsStr "failed"
        \/ status_read Scenario.config r = JsStr "success").
Proof.
  apply (alert_needs_new_concluded_run Scenario.config
           (Scenario.always Scenario.run_B) Scenario.tracking_A).
  vm_compute. discriminate.
Defined.

(** ** Requests *)

Lemma alert_events_no_get config r type env sent read :
  filter is_get (alert_events config r type env sent read) = [].
Proof.
  unfold alert_events, slack_events, webhook_events.
  destruct (truthy (slackWebhook config)), (truthy (webhookUrl config));
    cbn [app filter is_get];
    repeat match goal with
           | |- context [match ?x with Some _ => _ | None => _ end] =>
             destruct x
           end; reflexivity.
Qed.

Lemma poll_events_request config env w :
  exists rest,
    poll_events config env w
    = (match poll_request config with
       | Some g => [g]
       | None => []
       end ++ rest)%list
    /\ filter is_get rest = [].
Proof.
  unfold poll_events.
  destruct (poll_request config) as [g|]; [|exists []; split; reflexivity].
  eexists. split; [reflexivity|].
  destruct (latest_run config (get_reply env (gets w))) as [[r|]|e|c];
    try reflexivity.
  destruct (truthy (lastRunId w)); [|reflexivity].
  destruct (strict_neq (String_ (run_id r)) (lastRunId w)); [|reflexivity].
  destruct (alert_due config r); [apply alert_events_no_get|reflexivity].
Qed.

(** X7. Whatever the reply and the state, a poll starts with one GET and
    issues no other: on GitHub to the repository's [actions/runs] with the
    token as a bearer credential, on GitLab to the project's [pipelines]
    with the token in [PRIVATE-TOKEN], both with a page size of 1. *)
Theorem one_request_per_poll config env w :
  (platform config = "github" ->
   exists rest,
     added (checkPipeline config) env w
     = AxiosGet
         ("https://api.github.com/repos/" ++ owner config ++ "/"
            ++ repo config ++ "/actions/runs")
         [ ("Authorization", "Bearer " ++ token config);
           ("Accept", "application/vnd.github+json") ]
         1 :: rest
     /\ filter is_get rest = [])
  /\ (platform config = "gitlab" ->
      exists rest,
        added (checkPipeline config) env w
        = AxiosGet
            ("https://gitlab.com/api/v4/projects/"
               ++ encodeURIComponent (owner config ++ "/" ++ repo config)
               ++ "/pipelines")
            [ ("PRIVATE-TOKEN", token config) ]
            1 :: rest
        /\ filter is_get rest = []).
Proof.
  rewrite poll_added.
  destruct (poll_events_request config env w) as (rest & E & Hrest).
  rewrite E. unfold poll_request.
  split; intros Hp; rewrite Hp; cbn [String.eqb Ascii.eqb Bool.eqb];
    exists rest; (split; [reflexivity|exact Hrest]).
Qed.

Lemma one_request_per_poll_witness :
  exists rest,
    added (checkPipeline Scenario.gitlab_config)
      (Scenario.gitlab_always Scenario.pipeline_B) Scenario.tracking_A
    = AxiosGet "https://gitlab.com/api/v4/projects/acme%2Fapi/pipelines"
        [ ("PRIVATE-TOKEN", "glpat_token") ] 1 :: rest
    /\ filter is_get rest = [].
Proof.
  destruct (one_request_per_poll Scenario.gitlab_config
              (Scenario.gitlab_always Scenario.pipeline_B)
              Scenario.tracking_A) as [_ Hgitlab].
  exact (Hgitlab eq_refl).
Defined.

(** X8. On GitHub and GitLab the number of GETs grows by exactly one with
    each firing of the timer, whether the fetch fails, finds nothing or
    leads to an alert: a failed fetch is not retried before the next
    firing. *)
Theorem one_get_per_firing config env n w :
  platform config = "github" \/ platform config = "gitlab" ->
  gets (snd (setInterval (checkPipeline config) n env w)) = n + gets w.
Proof.
  intros Hp. revert w. induction n as [|n IH]; intros w; [reflexivity|].
  rewrite setInterval_S, IH, poll_gets.
  unfold poll_request.
  destruct Hp as [-> | ->]; cbn [String.eqb Ascii.eqb Bool.eqb]; lia.
Qed.

Lemma one_get_per_firing_witness :
  gets (snd (setInterval (checkPipeline Scenario.config) 5 Scenario.offline
               Scenario.tracking_A)) = 6.
Proof.
  apply (one_get_per_firing Scenario.config Scenario.offline 5
           Scenario.tracking_A).
  left. reflexivity.
Defined.

Lemma poll_events_posts_bound config env w :
  length (filter is_post (poll_events config env w)) <= sinks config.
Proof.
  unfold poll_events.
  destruct (poll_request config) as [g|] eqn:Hreq; [|cbn; lia].
  destruct (poll_request_get _ _ Hreq) as (url & headers & ->).
  cbn [filter is_post].
  destruct (latest_run config (get_reply env (gets w))) as [[r|]|e|c];
    try (cbn; lia).
  destruct (truthy (lastRunId w)); [|cbn; lia].
  destruct (strict_neq (String_ (run_id r)) (lastRunId w)); [|cbn; lia].
  destruct (alert_due config r); [|cbn; lia].
  rewrite alert_events_posts. lia.
Qed.

Lemma alert_events_by_sink config r type env sent read :
  length (filter is_slack_post (alert_events config r type env sent read))
  <= 1
  /\ length (filter is_webhook_post
                (alert_events config r type env sent read)) <= 1
  /\ forallb (post_to_sink config) (alert_events config r type env sent read)
     = true.
Proof.
  unfold alert_events, slack_events, webhook_events.
  destruct (truthy (slackWebhook config)) eqn:Hs,
           (truthy (webhookUrl config)) eqn:Hu;
    cbn [app filter is_slack_post is_webhook_post forallb post_to_sink];
    rewrite ?Hs, ?Hu, ?String.eqb_refl;
    repeat match goal with
           | |- context [match ?x with Some _ => _ | None => _ end] =>
             destruct x
           end;
    cbn [app filter is_slack_post is_webhook_post forallb post_to_sink
         length andb];
    repeat split; try reflexivity; lia.
Qed.

Lemma poll_events_by_sink config env w :
  length (filter is_slack_post (poll_events config env w)) <= 1
  /\ length (filter is_webhook_post (poll_events config env w)) <= 1
  /\ forallb (post_to_sink config) (poll_events config env w) = true.
Proof.
  unfold poll_events.
  destruct (poll_request config) as [g|] eqn:Hreq;
    [|cbn; repeat split; lia].
  destruct (poll_request_get _ _ Hreq) as (url & headers & ->).
  cbn [filter is_slack_post is_webhook_post forallb post_to_sink andb].
  destruct (latest_run config (get_reply env (gets w))) as [[r|]|e|c];
    try (cbn; repeat split; lia).
  destruct (truthy (lastRunId w)); [|cbn; repeat split; lia].
  destruct (strict_neq (String_ (run_id r)) (lastRunId w));
    [|cbn; repeat split; lia].
  destruct (alert_due config r); [|cbn; repeat split; lia].
  apply alert_events_by_sink.
Qed.

(** The events [n] firings of the timer add to the trace. *)
Lemma firings_by_sink config env n w :
  exists d,
    trace (snd (setInterval (checkPipeline config) n env w))
    = (trace w ++ d)%list
    /\ length (filter is_slack_post d) <= n
    /\ length (filter is_webhook_post d) <= n
    /\ forallb (post_to_sink config) d = true.
Proof.
  revert w. induction n as [|n IH]; intros w.
  - exists []. cbn [setInterval ret snd]. rewrite app_nil_r.
    repeat split; cbn; lia.
  - rewrite setInterval_S.
    destruct (IH (snd (checkPipeline config env w)))
      as (d & Ht & Hslack & Hhook & Hsink).
    destruct (poll_events_by_sink config env w) as (Hs1 & Hh1 & Hk1).
    exists (poll_events config env w ++ d)%list.
    rewrite Ht, poll_trace, <- app_assoc.
    rewrite !filter_app, !length_app, forallb_app, Hk1, Hsink.
    repeat split; lia.
Qed.

(** X9. The delivery attempts are bounded by the polls, sink by sink: of
    the events [n] firings of the timer add, at most [n] are POSTs of a
    Slack payload and at most [n] are POSTs of an event record; every POST
    goes to a configured sink with that sink's own payload (the Slack
    payload to the Slack webhook, the event record to the generic webhook);
    so at most [2 * n] POSTs are issued in all. *)
Theorem posts_bounded_by_firings config env n w :
  length (filter is_slack_post
            (added (setInterval (checkPipeline config) n) env w)) <= n
  /\ length (filter is_webhook_post
                (added (setInterval (checkPipeline config) n) env w)) <= n
  /\ forallb (post_to_sink config)
       (added (setInterval (checkPipeline config) n) env w) = true
  /\ posts (snd (setInterval (checkPipeline config) n env w))
     <= n * sinks config + posts w
  /\ sinks config <= 2.
Proof.
  destruct (firings_by_sink config env n w)
    as (d & Ht & Hslack & Hhook & Hsink).
  rewrite (added_extends _ _ _ _ Ht).
  split; [exact Hslack|]. split; [exact Hhook|]. split; [exact Hsink|].
  split.
  - clear. revert w. induction n as [|n IH]; intros w; [cbn; lia|].
    rewrite setInterval_S.
    specialize (IH (snd (checkPipeline config env w))).
    rewrite poll_posts in IH.
    pose proof (poll_events_posts_bound config env w). lia.
  - unfold sinks.
    destruct (truthy (slackWebhook config)), (truthy (webhookUrl config));
      cbn; lia.
Qed.

(** Three firings with both sinks configured and Slack rejecting. *)
Lemma posts_bounded_by_firings_witness :
  length (filter is_slack_post
            (added (setInterval (checkPipeline Scenario.config) 3)
               (Scenario.slack_down Scenario.run_B) Scenario.tracking_A))
  <= 3
  /\ length (filter is_webhook_post
                (added (setInterval (checkPipeline Scenario.config) 3)
                   (Scenario.slack_down Scenario.run_B) Scenario.tracking_A))
     <= 3.
Proof.
  destruct (posts_bounded_by_firings Scenario.config
              (Scenario.slack_down Scenario.run_B) 3 Scenario.tracking_A)
    as (Hslack & Hhook & _).
  split; [exact Hslack|exact Hhook].
Defined.

(** ** Alerts *)

(** X10. [sendAlert] issues exactly one POST per configured sink, Slack
    first, and none when no sink is configured; each POST is followed at
    once by one console line telling its outcome, a log line after a
    success and an error line after a failure, and is never repeated. *)
Theorem sendAlert_reports_each_attempt config r type env w :
  map fst (delivered (sendAlert config r type) env w)
  = ((if truthy (slackWebhook config)
      then [opt_string (slackWebhook config)] else [])
     ++ (if truthy (webhookUrl config)
         then [opt_string (webhookUrl config)] else []))%list
  /\ posts (snd (sendAlert config r type env w)) = sinks config + posts w
  /\ reported env (posts w) (added (sendAlert config r type) env w) = true.
Proof.
  assert (Ht : trace (snd (sendAlert config r type env w))
               = (trace w
                  ++ alert_events config r type env (posts w) (reads w))%list)
    by (rewrite sendAlert_outcome; reflexivity).
  rewrite (delivered_extends _ _ _ _ Ht), (added_extends _ _ _ _ Ht).
  split; [apply alert_events_slack_first|].
  split; [rewrite sendAlert_outcome; reflexivity|].
  unfold alert_events, slack_events, webhook_events.
  destruct (truthy (slackWebhook config)), (truthy (webhookUrl config));
    cbn [app reported];
    repeat match goal with
           | |- context [post_reply ?e ?n] =>
             destruct (post_reply e n) eqn:?; cbn [reported]
           end;
    try reflexivity; try congruence.
Qed.

(** X11. The Slack message is made of the repository name and the alert
    type alone: its text, its colour and its three fields (Repository,
    Status, Details) do not depend on the run, so it is the same for every
    run and tells nothing about it. *)
Theorem slack_message_ignores_run config r type env w url p :
  In (url, SlackBody p) (delivered (sendAlert config r type) env w) ->
  p = slack_payload config type
  /\ text p
     = match type with
       | failure => "🚨 Pipeline Failed: "
       | recovery => "✅ Pipeline Recovered: "
       end ++ owner config ++ "/" ++ repo config
  /\ map title (concat (map fields (attachments p)))
     = ["Repository"; "Status"; "Details"]
  /\ map value (concat (map fields (attachments p)))
     = [ owner config ++ "/" ++ repo config;
         match type with failure => "FAILED" | recovery => "PASSED" end;
         match type with
         | failure =>
           "The pipeline has failed. Check the logs for more details."
         | recovery => "The pipeline is now passing again."
         end ].
Proof.
  assert (Ht : trace (snd (sendAlert config r type env w))
               = (trace w
                  ++ alert_events config r type env (posts w) (reads w))%list)
    by (rewrite sendAlert_outcome; reflexivity).
  rewrite (delivered_extends _ _ _ _ Ht).
  unfold alert_events, slack_events, webhook_events.
  intros Hin.
  assert (Hp : p = slack_payload config type).
  { destruct (truthy (slackWebhook config)), (truthy (webhookUrl config));
      cbn [app posts_of] in Hin;
      repeat match type of Hin with
             | context [match ?x with Some _ => _ | None => _ end] =>
               destruct x; cbn [posts_of] in Hin
             end;
      cbn [In] in Hin;
      repeat match type of Hin with
             | _ \/ _ => destruct Hin as [Hin | Hin]
             end;
      try contradiction; try discriminate;
      injection Hin as _ <-; reflexivity. }
  subst p. repeat split; destruct type; reflexivity.
Qed.

Lemma slack_message_ignores_run_witness :
  text (slack_payload Scenario.config recovery)
  = "✅ Pipeline Recovered: acme/api"
  /\ map value
       (concat (map fields (attachments (slack_payload Scenario.config
                                           recovery))))
     = ["acme/api"; "PASSED"; "The pipeline is now passing again."].
Proof.
  assert (Hin : In ("https://hooks.slack.example.org/T0",
                    SlackBody (slack_payload Scenario.config recovery))
                   (delivered
                      (sendAlert Scenario.config Scenario.run_C recovery)
                      (Scenario.always Scenario.run_C) Scenario.tracking_A))
    by (vm_compute; left; reflexivity).
  destruct (slack_message_ignores_run Scenario.config Scenario.run_C
              recovery (Scenario.always Scenario.run_C) Scenario.tracking_A
              _ _ Hin) as (_ & Htext & _ & Hvalues).
  split; [exact Htext|exact Hvalues].
Defined.

(** ** The token *)

Lemma poll_reads config env w :
  reads (snd (checkPipeline config env w)) = next_reads config env w.
Proof.
  unfold next_reads. poll_cases config env w; reflexivity.
Qed.

Lemma poll_redacted config env w :
  redact_world (snd (checkPipeline config env w))
  = mkWorld (next_lastRunId config env w)
      (match poll_request config with
       | Some _ => S (gets w)
       | None => gets w
       end)
      (length (filter is_post (poll_events config env w)) + posts w)
      (next_reads config env w)
      (map redact (trace w) ++ map redact (poll_events config env w)).
Proof.
  unfold redact_world.
  rewrite poll_lastRunId, poll_gets, poll_posts, poll_reads, poll_trace,
    map_app.
  reflexivity.
Qed.

Lemma alert_events_token config t r type env sent read :
  alert_events (with_token config t) r type env sent read
  = alert_events config r type env sent read.
Proof. reflexivity. Qed.

Lemma poll_events_token config t1 t2 env w :
  map redact (poll_events (with_token config t1) env w)
  = map redact (poll_events (with_token config t2) env w).
Proof.
  unfold poll_events, poll_request, latest_run, alert_due, status_read.
  cbn [with_token platform].
  destruct (platform config =? "github");
    [|destruct (platform config =? "gitlab"); [|reflexivity]];
    cbn [map redact github_request gitlab_request]; f_equal;
    destruct (get_reply env (gets w)) as [d|e]; try reflexivity;
    destruct d as [| [[| r l] |] | [| r l]]; try reflexivity;
    cbn [first_of];
    rewrite !alert_events_token; reflexivity.
Qed.

Lemma poll_redact_step config t1 t2 env w1 w2 :
  redact_world w1 = redact_world w2 ->
  redact_world (snd (checkPipeline (with_token config t1) env w1))
  = redact_world (snd (checkPipeline (with_token config t2) env w2)).
Proof.
  intros H. unfold redact_world in H. injection H as Hl Hg Hp Hr Ht.
  rewrite !poll_redacted.
  assert (Hevents : map redact (poll_events (with_token config t1) env w1)
                    = map redact (poll_events (with_token config t2) env w2)).
  { rewrite (poll_events_token config t1 t2).
    unfold poll_events. rewrite Hl, Hg, Hp, Hr. reflexivity. }
  assert (Hposts : length (filter is_post
                             (poll_events (with_token config t1) env w1))
                   = length (filter is_post
                               (poll_events (with_token config t2) env w2))).
  { unfold poll_events, poll_request, latest_run, alert_due, status_read.
    cbn [with_token platform]. rewrite Hl, Hg, Hp, Hr.
    destruct (platform config =? "github");
      [|destruct (platform config =? "gitlab"); [|reflexivity]];
      cbn [filter is_post github_request gitlab_request]; reflexivity. }
  rewrite Hevents, Hposts, Ht, Hp.
  unfold next_lastRunId, next_reads, poll_request, latest_run, alert_due,
    status_read.
  cbn [with_token platform webhookUrl]. rewrite Hl, Hg, Hr.
  destruct (platform config =? "github");
    [|destruct (platform config =? "gitlab")]; reflexivity.
Qed.

(** X12. The API token reaches nothing but the headers of the GETs: with
    any other token the polls leave the same [lastRunId], print the same
    lines and issue the same requests and the same POSTs, bodies included,
    once the GET headers are blanked out. *)
Theorem token_only_in_get_headers config t1 t2 env n w :
  redact_world
    (snd (setInterval (checkPipeline (with_token config t1)) n env w))
  = redact_world
      (snd (setInterval (checkPipeline (with_token config t2)) n env w)).
Proof.
  assert (H : forall w1 w2,
             redact_world w1 = redact_world w2 ->
             redact_world
               (snd (setInterval (checkPipeline (with_token config t1)) n
                       env w1))
             = redact_world
                 (snd (setInterval (checkPipeline (with_token config t2)) n
                         env w2))).
  { induction n as [|n IH]; intros w1 w2 Hw; [exact Hw|].
    rewrite !setInterval_S. apply IH, poll_redact_step, Hw. }
  apply H. reflexivity.
Qed.

(** ** The first observation *)

(** X13. On the first observation the poll prints one status line, the
    timestamp followed by "✓ PASS" when the status read is "success",
    by "✗ FAIL" when it is "failure", and by "⟳ RUNNING" for anything else,
    "failed" included; this is all it adds after its GET. *)
Theorem first_observation_status_line config env w r :
  Observes config env w r ->
  truthy (lastRunId w) = false ->
  exists g label,
    added (checkPipeline config) env w
    = [ g;
        ConsoleLog (toISOString (clock env (reads w)) ++ " " ++ label) ]
    /\ is_get g = true
    /\ (status_read config r = JsStr "success" -> label = "✓ PASS")
    /\ (status_read config r = JsStr "failure" -> label = "✗ FAIL")
    /\ (status_read config r <> JsStr "success" ->
        status_read config r <> JsStr "failure" ->
        label = "⟳ RUNNING").
Proof.
  intros Hobs Hfalsy. rewrite poll_added. unfold poll_events.
  destruct (observes_latest _ _ _ _ Hobs) as (g & Hreq & Hlatest).
  destruct (poll_request_get _ _ Hreq) as (url & headers & Hg).
  rewrite Hreq, Hlatest, Hfalsy.
  exists g, (status_text (status_read config r)).
  split; [reflexivity|]. split; [rewrite Hg; reflexivity|].
  unfold status_text. repeat split.
  - intros ->. reflexivity.
  - intros ->. reflexivity.
  - intros H1 H2. apply strict_eq_false in H1, H2. rewrite H1, H2.
    reflexivity.
Qed.

(** A failed GitLab pipeline is shown as running. *)
Lemma first_observation_status_line_witness :
  exists g,
    added (checkPipeline Scenario.gitlab_config)
      (Scenario.gitlab_always Scenario.pipeline_B) initial_world
    = [ g; ConsoleLog "2024-05-01T00:00:00.000Z ⟳ RUNNING" ].
Proof.
  destruct (first_observation_status_line Scenario.gitlab_config
              (Scenario.gitlab_always Scenario.pipeline_B) initial_world
              Scenario.pipeline_B)
    as (g & label & Hadded & _ & _ & _ & Hrunning).
  - apply (observes_gitlab _ _ _ _ []); reflexivity.
  - reflexivity.
  - exists g. rewrite Hadded, Hrunning; [reflexivity|discriminate..].
Defined.

(** X15. A poll changes [lastRunId] only from a falsy value, and then to
    the stringified id of the run it has just fetched; from a falsy value
    every fetched run is recorded. *)
Theorem lastRunId_takes_fetched_id config env w :
  (lastRunId (snd (checkPipeline config env w)) <> lastRunId w ->
   exists r,
     Observes config env w r
     /\ truthy (lastRunId w) = false
     /\ lastRunId (snd (checkPipeline config env w))
        = Some (String_ (run_id r)))
  /\ (forall r,
         Observes config env w r ->
         truthy (lastRunId w) = false ->
         lastRunId (snd (checkPipeline config env w))
         = Some (String_ (run_id r))).
Proof.
  rewrite poll_lastRunId. unfold next_lastRunId. split.
  - destruct (poll_request config) as [g|] eqn:Hreq;
      [|intros H; now elim H].
    destruct (latest_run config (get_reply env (gets w))) as [[r|]|e|c]
      eqn:Hlatest; try (intros H; now elim H).
    destruct (truthy (lastRunId w)) eqn:Htruthy; [intros H; now elim H|].
    intros _. exists r.
    split; [eapply latest_observes; eassumption|].
    split; reflexivity.
  - intros r Hobs Hfalsy.
    destruct (observes_latest _ _ _ _ Hobs) as (g & Hreq & Hlatest).
    rewrite Hreq, Hlatest, Hfalsy. reflexivity.
Qed.

Lemma lastRunId_takes_fetched_id_witness :
  lastRunId (snd (checkPipeline Scenario.config
                    (Scenario.first_then Scenario.run_unnamed Scenario.run_B)
                    Scenario.tracking_empty))
  = Some "101".
Proof.
  destruct (lastRunId_takes_fetched_id Scenario.config
              (Scenario.first_then Scenario.run_unnamed Scenario.run_B)
              Scenario.tracking_empty) as [_ Hrecord].
  apply (Hrecord Scenario.run_B).
  - apply (observes_github _ _ _ _ []); reflexivity.
  - reflexivity.
Defined.

(** ** The GitLab project id *)

Lemma encodeURIComponent_app (a b : string) :
  encodeURIComponent (a ++ b)
  = encodeURIComponent a ++ encodeURIComponent b.
Proof.
  induction a as [|c a IH]; [reflexivity|].
  cbn [append encodeURIComponent]. rewrite IH.
  destruct (unreserved c); reflexivity.
Qed.

Lemma hex_digit_safe (n : nat) : n < 16 -> url_safe (hex_digit n) = true.
Proof.
  intros H. do 16 (destruct n as [|n]; [reflexivity|]). lia.
Qed.

Lemma encodeURIComponent_safe (s : string) :
  forallb url_safe (list_ascii_of_string (encodeURIComponent s)) = true.
Proof.
  induction s as [|c s IH]; [reflexivity|].
  cbn [encodeURIComponent].
  destruct (unreserved c) eqn:Hc.
  - cbn [list_ascii_of_string forallb]. rewrite IH.
    unfold url_safe. rewrite Hc. reflexivity.
  - cbn [list_ascii_of_string forallb]. rewrite IH.
    rewrite !hex_digit_safe.
    + reflexivity.
    + apply Nat.mod_upper_bound. discriminate.
    + pose proof (nat_ascii_bounded c).
      apply Nat.Div0.div_lt_upper_bound. exact H.
Qed.

(** X14. On GitLab the project is addressed by one path segment: the id in
    the request URL is the percent-encoded owner, "%2F", and the
    percent-encoded repository name, and holds only unreserved characters
    and "%", so neither a "/" nor a space of a nested group or a name gets
    into the path. *)
Theorem gitlab_project_is_one_segment config env w :
  platform config = "gitlab" ->
  exists id rest,
    added (checkPipeline config) env w
    = AxiosGet ("https://gitlab.com/api/v4/projects/" ++ id ++ "/pipelines")
        [ ("PRIVATE-TOKEN", token config) ] 1 :: rest
    /\ id = encodeURIComponent (owner config) ++ "%2F"
            ++ encodeURIComponent (repo config)
    /\ forallb url_safe (list_ascii_of_string id) = true.
Proof.
  intros Hp. rewrite poll_added.
  destruct (poll_events_request config env w) as (rest & E & _).
  rewrite E. unfold poll_request. rewrite Hp.
  cbn [String.eqb Ascii.eqb Bool.eqb app]. unfold gitlab_request.
  exists (encodeURIComponent (owner config ++ "/" ++ repo config)), rest.
  split; [reflexivity|].
  split; [|apply encodeURIComponent_safe].
  rewrite !encodeURIComponent_app. reflexivity.
Qed.

Lemma gitlab_project_is_one_segment_witness :
  exists rest,
    added (checkPipeline Cases.nested)
      (Scenario.gitlab_always Scenario.pipeline_B) initial_world
    = AxiosGet
        "https://gitlab.com/api/v4/projects/acme%2Fplatform%2Fmy%20api/pipelines"
        [ ("PRIVATE-TOKEN", "glpat_token") ] 1 :: rest.
Proof.
  destruct (gitlab_project_is_one_segment Cases.nested
              (Scenario.gitlab_always Scenario.pipeline_B) initial_world
              eq_refl) as (id & rest & Hadded & Hid & _).
  exists rest. rewrite Hadded, Hid. reflexivity.
Defined.

(** ** From the fetched run to the webhook *)

Lemma alert_events_webhook config r type env sent read u :
  webhookUrl config = Some u ->
  u <> "" ->
  In (u,
      WebhookBody
        (mkWebhookPayload (type_string type)
           (owner config ++ "/" ++ repo config)
           (toISOString (clock env read)) r))
     (posts_of (alert_events config r type env sent read)).
Proof.
  intros Hu Hu'. unfold alert_events, slack_events, webhook_events.
  rewrite Hu. cbn [opt_string].
  assert (Ht : truthy (Some u) = true) by (apply truthy_Some; exact Hu').
  rewrite Ht. rewrite posts_of_app. apply in_or_app. right.
  cbn [posts_of]. left. reflexivity.
Qed.

(** X16. A poll that fetches a run whose id differs from a non-empty
    [lastRunId] hands that very run to the generic webhook: with status
    "failure" or "failed" the event is "failure", with status "success" it
    is "recovery", and the record carries the repository name, the time of
    the poll's clock reading and the run object as fetched. *)
Theorem concluded_run_reaches_webhook config env w r a u :
  Observes config env w r ->
  lastRunId w = Some a ->
  a <> "" ->
  String_ (run_id r) <> a ->
  webhookUrl config = Some u ->
  u <> "" ->
  (status_read config r = JsStr "failure"
   \/ status_read config r = JsStr "failed" ->
   In (u,
       WebhookBody
         (mkWebhookPayload "failure" (owner config ++ "/" ++ repo config)
            (toISOString (clock env (reads w))) r))
      (delivered (checkPipeline config) env w))
  /\ (status_read config r = JsStr "success" ->
      In (u,
          WebhookBody
            (mkWebhookPayload "recovery" (owner config ++ "/" ++ repo config)
               (toISOString (clock env (reads w))) r))
         (delivered (checkPipeline config) env w)).
Proof.
  intros Hobs Hlast Ha Hneq Hu Hu'.
  rewrite poll_delivered. unfold poll_events.
  destruct (observes_latest _ _ _ _ Hobs) as (g & Hreq & Hlatest).
  destruct (poll_request_get _ _ Hreq) as (url & headers & Hg).
  rewrite Hreq, Hlatest, Hlast, Hg.
  assert (Ht : truthy (Some a) = true) by (apply truthy_Some; exact Ha).
  assert (Hd : strict_neq (String_ (run_id r)) (Some a) = true)
    by (apply strict_neq_Some; exact Hneq).
  rewrite Ht, Hd. cbn [posts_of]. unfold alert_due. cbv zeta.
  split.
  - intros [H | H]; rewrite H; cbn [strict_eq String.eqb Ascii.eqb Bool.eqb orb];
      exact (alert_events_webhook config r failure env _ _ u Hu Hu').
  - intros H; rewrite H; cbn [strict_eq String.eqb Ascii.eqb Bool.eqb orb];
      exact (alert_events_webhook config r recovery env _ _ u Hu Hu').
Qed.

Lemma concluded_run_reaches_webhook_witness :
  In ("https://hooks.example.org/ci",
      WebhookBody
        (mkWebhookPayload "failure" "acme/api" "2024-05-01T00:01:00.000Z"
           Scenario.pipeline_B))
     (delivered (checkPipeline Scenario.gitlab_config)
        (Scenario.gitlab_always Scenario.pipeline_B) Scenario.tracking_A).
Proof.
  destruct (concluded_run_reaches_webhook Scenario.gitlab_config
              (Scenario.gitlab_always Scenario.pipeline_B)
              Scenario.tracking_A Scenario.pipeline_B "100"
              "https://hooks.example.org/ci") as [Hfailure _].
  - apply (observes_gitlab _ _ _ _ []); reflexivity.
  - reflexivity.
  - discriminate.
  - discriminate.
  - reflexivity.
  - discriminate.
  - apply Hfailure. right. reflexivity.
Defined.

(** ** The baseline over platform ids *)

Lemma observes_first_run config env w r :
  Observes config env w r -> first_run (get_reply env (gets w)) = Some r.
Proof.
  intros [rest Hp Hg | rest Hp Hg]; rewrite Hg; reflexivity.
Qed.

Lemma platform_id_truthy (n : Z) : truthy (Some (String_ (JsNum n))) = true.
Proof. apply truthy_Some, String_num_nonempty. Qed.

(** C10. The platforms number their runs.  Under their replies
    [lastRunId] is always null or the id of a platform run; a poll assigns
    it only when it is null; and once the first run has been observed, no
    number of later polls reassigns it, so each of them compares the
    fetched id against the id of that first run. *)
Theorem lastRunId_assigned_once config env :
  PlatformIds env ->
  (forall w,
      platform_state w ->
      platform_state (snd (checkPipeline config env w)))
  /\ (forall w,
        platform_state w ->
        lastRunId (snd (checkPipeline config env w)) <> lastRunId w ->
        lastRunId w = None)
  /\ (forall w r n,
        lastRunId w = None ->
        Observes config env w r ->
        lastRunId
          (snd (setInterval (checkPipeline config) n env
                  (snd (checkPipeline config env w))))
        = Some (String_ (run_id r))).
Proof.
  intros Hids. split; [|split].
  - intros w Hw. unfold platform_state.
    rewrite poll_lastRunId. unfold next_lastRunId.
    destruct (poll_request config) as [g|] eqn:Hreq; [|exact Hw].
    destruct (latest_run config (get_reply env (gets w))) as [[r|]|e|c]
      eqn:Hlatest; try exact Hw.
    destruct (truthy (lastRunId w)); [exact Hw|].
    destruct (Hids (gets w) r) as (k & Hk).
    { eapply observes_first_run, latest_observes; eassumption. }
    right. exists k. rewrite Hk. reflexivity.
  - intros w [Hnull | (k & Hk)] Hchanged; [exact Hnull|].
    destruct (lastRunId_frozen_once_truthy config env) as [Hfalsy _].
    specialize (Hfalsy w Hchanged).
    rewrite Hk, platform_id_truthy in Hfalsy. discriminate.
  - intros w r n Hnull Hobs.
    assert (Hfalsy : truthy (lastRunId w) = false)
      by (rewrite Hnull; reflexivity).
    destruct (checkPipeline_first config env w r Hobs Hfalsy)
      as (u & h & l & E).
    destruct (Hids (gets w) r (observes_first_run _ _ _ _ Hobs))
      as (k & Hk).
    destruct (lastRunId_frozen_once_truthy config env) as [_ Hfrozen].
    rewrite Hfrozen; rewrite E; cbn [snd lastRunId]; [reflexivity|].
    rewrite Hk. apply platform_id_truthy.
Qed.

(** GitHub returns run 100 to the first poll and run 101 to the next
    three. *)
Lemma lastRunId_assigned_once_witness :
  PlatformIds (Scenario.first_then Scenario.run_A Scenario.run_B)
  /\ lastRunId
       (snd (setInterval (checkPipeline Scenario.config) 3
               (Scenario.first_then Scenario.run_A Scenario.run_B)
               (snd (checkPipeline Scenario.config
                       (Scenario.first_then Scenario.run_A Scenario.run_B)
                       initial_world))))
     = Some "100".
Proof.
  assert (Hids : PlatformIds
                   (Scenario.first_then Scenario.run_A Scenario.run_B)).
  { intros k r H. destruct k as [|k]; cbn in H; injection H as <-;
      eexists; reflexivity. }
  split; [exact Hids|].
  destruct (lastRunId_assigned_once Scenario.config
              (Scenario.first_then Scenario.run_A Scenario.run_B) Hids)
    as (_ & _ & Honce).
  apply (Honce initial_world Scenario.run_A 3).
  - reflexivity.
  - apply (observes_github _ _ _ _ []); reflexivity.
Defined.
